(** * cwms/aisles.go: filter compilation, row mapping and routing

    A shallow embedding of the inventory API of the warehouse backend
    (package main, file cwms/aisles.go) and the properties of its
    filter-to-query translation, its row scanning and its request
    routing.

    Go strings and byte slices are byte sequences: both are modelled by
    [string], whose characters are the 256 values of [ascii].  Go's [int]
    is modelled by [Z] (64-bit platform). *)

From Stdlib Require Import String Ascii List ZArith NArith Bool Lia.
From Stdlib Require Import Numbers.DecimalString.
Import ListNotations.

Local Open Scope list_scope.
Local Open Scope string_scope.

(** ** Bytes that cannot be written inside a literal *)

(** The double quote, byte 0x22. *)
Definition DQ : ascii := ascii_of_nat 34.

(** * The parts of Go's [strings] and [fmt] packages the file uses *)

Module strings.

(** [strings.Split(s, sep)] for a one-byte separator: the substrings
    between the separators, [ [s] ] when [s] holds none of them (also for
    the empty string). *)
Fixpoint Split (s : string) (sep : ascii) : list string :=
  match s with
  | EmptyString => [EmptyString]
  | String c rest =>
      if Ascii.eqb c sep then EmptyString :: Split rest sep
      else match Split rest sep with
           | [] => [String c EmptyString]
           | hd :: tl => String c hd :: tl
           end
  end.

(** [strings.Join(elems, sep)]. *)
Fixpoint Join (elems : list string) (sep : string) : string :=
  match elems with
  | [] => EmptyString
  | [e] => e
  | e :: rest => e ++ sep ++ Join rest sep
  end.

(** [strings.HasPrefix(s, prefix)]. *)
Fixpoint HasPrefix (s prefix : string) {struct prefix} : bool :=
  match prefix with
  | EmptyString => true
  | String a prefix' =>
      match s with
      | EmptyString => false
      | String b s' => Ascii.eqb a b && HasPrefix s' prefix'
      end
  end.

(** [strings.Contains(s, substr)]. *)
Fixpoint Contains (s substr : string) : bool :=
  HasPrefix s substr ||
  match s with
  | EmptyString => false
  | String _ rest => Contains rest substr
  end.

End strings.

(** * The filter and its SQL statement *)

(** [AisleFilter] holds Aisle filter information; the Aisle and
    Discrepancy filters are cumulative. *)
Record AisleFilter := mkAisleFilter {
  Aisle : string;        (* Filter on Aisle *)
  Discrepancy : string   (* Filter on Discrepancies *)
}.

(** The zero value of [AisleFilter] ([var af AisleFilter]). *)
Definition zeroAisleFilter : AisleFilter := mkAisleFilter "" "".

Module Stmt.

(** The projection over the view, [sel] in [toSqlStmt]. *)
Definition sel : string :=
  "select inventoryId, startTime, stopTime, sku, aisle, block, slot, shelf, displayName, discrepancy, imageUrl from v_inventory ".

(** The ordering clause, [order] in [toSqlStmt]. *)
Definition order : string := "order by aisle, block, slot".

(** [fmt.Sprintf(`aisle ='%s'`, v)]. *)
Definition aisleEq (v : string) : string := "aisle ='" ++ v ++ "'".

(** [fmt.Sprintf(`discrepancy ='%s'`, v)]. *)
Definition discrepancyEq (v : string) : string :=
  "discrepancy ='" ++ v ++ "'".

(** The literal [`discrepancy !="" `], with its trailing space. *)
Definition discrepancyNotEmpty : string :=
  "discrepancy !=" ++ String DQ (String DQ " ").

End Stmt.

(** The [where] slice [toSqlStmt] builds before joining it. *)
Definition whereClauses (af : AisleFilter) : list string :=
  let wh := [] in
  let wh :=
    if negb (String.eqb (Aisle af) "")
    then (wh ++ [Stmt.aisleEq (Aisle af)])%list
    else wh in
  if String.eqb (Discrepancy af) "all"
  then (wh ++ [Stmt.discrepancyNotEmpty])%list
  else if negb (String.eqb (Discrepancy af) "")
       then (wh ++ [Stmt.discrepancyEq (Discrepancy af)])%list
       else wh.

(** [toSqlStmt] generates a sql statement. *)
Definition toSqlStmt (af : AisleFilter) : string :=
  let wh := whereClauses af in
  if (0 <? List.length wh)%nat
  then Stmt.sel ++ " where " ++ strings.Join wh " and " ++ " " ++ Stmt.order
  else Stmt.sel ++ " " ++ Stmt.order.

(** * Request routing: the filter a handler builds from the path *)

(** [sl[len(sl)-1]] under the guard [len(sl) > 0]. *)
Definition lastSegment (sl : list string) : option string :=
  match sl with
  | [] => None
  | _ :: _ => Some (List.last sl EmptyString)
  end.

(** The filter [handleApiAisles] builds from [r.URL.Path]. *)
Definition aislesFilter (path : string) : AisleFilter :=
  let af := zeroAisleFilter in
  let sl := strings.Split path "/" in
  match lastSegment sl with
  | Some ls =>
      if negb (String.eqb ls "")
      then mkAisleFilter ls (Discrepancy af)
      else af
  | None => af
  end.

(** The filter [handleApiDiscrepancies] builds from [r.URL.Path]. *)
Definition discrepanciesFilter (path : string) : AisleFilter :=
  let af := zeroAisleFilter in
  let af := mkAisleFilter (Aisle af) "all" in
  let sl := strings.Split path "/" in
  match lastSegment sl with
  | Some ls =>
      if negb (String.eqb ls "")
      then mkAisleFilter (Aisle af) ls
      else af
  | None => af
  end.

(** * The part of [encoding/json] the file uses

    [json.Unmarshal(b, &s)] for a target [s] of type [string]: the input
    must be one JSON value between optional white space.  A string literal
    is unquoted into the target; [null] leaves the target as it is; every
    other input (another kind of value, or malformed text) is an error.
    The two error classes of the package (syntax error, type mismatch) are
    not told apart. *)

Module json.

Definition code (c : ascii) : N := N_of_ascii c.
Definition byte (n : N) : ascii := ascii_of_N n.

(** JSON white space: space, tab, carriage return, line feed. *)
Definition isSpace (c : ascii) : bool :=
  let n := code c in
  (n =? 32)%N || (n =? 9)%N || (n =? 13)%N || (n =? 10)%N.

Fixpoint skipSpace (s : string) : string :=
  match s with
  | String c rest => if isSpace c then skipSpace rest else s
  | EmptyString => s
  end.

(** Value of a hexadecimal digit. *)
Definition hexVal (c : ascii) : option N :=
  let n := code c in
  if (48 <=? n)%N && (n <=? 57)%N then Some (n - 48)%N
  else if (97 <=? n)%N && (n <=? 102)%N then Some (n - 87)%N
  else if (65 <=? n)%N && (n <=? 70)%N then Some (n - 55)%N
  else None.

(** [getu4]: the code unit of four hexadecimal digits. *)
Definition hex4 (a b c d : ascii) : option N :=
  match hexVal a, hexVal b, hexVal c, hexVal d with
  | Some x, Some y, Some z, Some w =>
      Some (x * 4096 + y * 256 + z * 16 + w)%N
  | _, _, _, _ => None
  end.

(** [utf8.EncodeRune] for a code point that is not a surrogate. *)
Definition encodeRune (r : N) : string :=
  if (r <? 128)%N then String (byte r) ""
  else if (r <? 2048)%N then
    String (byte (192 + r / 64)) (String (byte (128 + r mod 64)) "")
  else if (r <? 65536)%N then
    String (byte (224 + r / 4096))
      (String (byte (128 + (r / 64) mod 64))
         (String (byte (128 + r mod 64)) ""))
  else
    String (byte (240 + r / 262144))
      (String (byte (128 + (r / 4096) mod 64))
         (String (byte (128 + (r / 64) mod 64))
            (String (byte (128 + r mod 64)) ""))).

(** U+FFFD, what a byte that is not UTF-8 and a lone surrogate become. *)
Definition replacementChar : string := encodeRune 65533.

Definition isSurrogate (r : N) : bool := (55296 <=? r)%N && (r <? 57344)%N.

(** [utf16.DecodeRune]: the code point of a surrogate pair, if it is one. *)
Definition decodeSurrogates (hi lo : N) : option N :=
  if (55296 <=? hi)%N && (hi <? 56320)%N && (56320 <=? lo)%N && (lo <? 57344)%N
  then Some ((hi - 55296) * 1024 + (lo - 56320) + 65536)%N
  else None.

Definition inRange (lo hi : N) (c : ascii) : bool :=
  (lo <=? code c)%N && (code c <=? hi)%N.

Definition cont (c : ascii) : bool := inRange 128 191 c.

(** [utf8.DecodeRune] on a first byte of 0x80 or more: the number of
    bytes of the well-formed sequence that starts the input, 0 when the
    first byte starts none. *)
Definition utf8Width (c : ascii) (rest : string) : nat :=
  let n := code c in
  match rest with
  | String c1 rest1 =>
      if inRange 194 223 c then (if cont c1 then 2 else 0)
      else
        match rest1 with
        | String c2 rest2 =>
            let second3 :=
              if (n =? 224)%N then inRange 160 191 c1
              else if (n =? 237)%N then inRange 128 159 c1
              else inRange 225 239 c && cont c1 in
            if second3 && cont c2 then 3
            else
              match rest2 with
              | String c3 _ =>
                  let second4 :=
                    if (n =? 240)%N then inRange 144 191 c1
                    else if (n =? 244)%N then inRange 128 143 c1
                    else inRange 241 243 c && cont c1 in
                  if second4 && cont c2 && cont c3 then 4 else 0
              | EmptyString => 0
              end
        | EmptyString => 0
        end
  | EmptyString => 0
  end.

(** The body of a string literal, after its opening quote: the unquoted
    text and what follows the closing quote; [None] when the literal is
    malformed (no closing quote, a control character, a bad escape). *)
Fixpoint unquote (s : string) : option (string * string) :=
  let emit (out : string) (r : option (string * string)) :=
    match r with
    | Some (t, after) => Some (out ++ t, after)
    | None => None
    end in
  match s with
  | EmptyString => None
  | String c rest =>
      let n := code c in
      if (n =? 34)%N then Some ("", rest)
      else if (n =? 92)%N then
        match rest with
        | EmptyString => None
        | String e rest1 =>
            let m := code e in
            if (m =? 34)%N || (m =? 92)%N || (m =? 47)%N
            then emit (String e "") (unquote rest1)
            else if (m =? 98)%N then emit (String (byte 8) "") (unquote rest1)
            else if (m =? 102)%N then emit (String (byte 12) "") (unquote rest1)
            else if (m =? 110)%N then emit (String (byte 10) "") (unquote rest1)
            else if (m =? 114)%N then emit (String (byte 13) "") (unquote rest1)
            else if (m =? 116)%N then emit (String (byte 9) "") (unquote rest1)
            else if (m =? 117)%N then
              match rest1 with
              | String h1 (String h2 (String h3 (String h4 rest5))) =>
                  match hex4 h1 h2 h3 h4 with
                  | None => None
                  | Some rr =>
                      if isSurrogate rr then
                        match rest5 with
                        | String b (String u (String l1 (String l2
                            (String l3 (String l4 rest11))))) =>
                            let pair :=
                              if (code b =? 92)%N && (code u =? 117)%N
                              then match hex4 l1 l2 l3 l4 with
                                   | Some rr1 => decodeSurrogates rr rr1
                                   | None => None
                                   end
                              else None in
                            match pair with
                            | Some dec => emit (encodeRune dec) (unquote rest11)
                            | None => emit replacementChar (unquote rest5)
                            end
                        | _ => emit replacementChar (unquote rest5)
                        end
                      else emit (encodeRune rr) (unquote rest5)
                  end
              | _ => None
              end
            else None
        end
      else if (n <? 32)%N then None
      else if (n <? 128)%N then emit (String c "") (unquote rest)
      else
        match utf8Width c rest, rest with
        | 2, String c1 r1 =>
            emit (String c (String c1 "")) (unquote r1)
        | 3, String c1 (String c2 r2) =>
            emit (String c (String c1 (String c2 ""))) (unquote r2)
        | 4, String c1 (String c2 (String c3 r3)) =>
            emit (String c (String c1 (String c2 (String c3 "")))) (unquote r3)
        | _, _ => emit replacementChar (unquote rest)
        end
  end.

(** Only white space is left. *)
Definition atEnd (s : string) : bool :=
  match skipSpace s with EmptyString => true | _ => false end.

(** The error of [Unmarshal], whatever its class. *)
Inductive error := DecodeError.

(** [json.Unmarshal(b, &target)] for a string target: the target after
    the call and the error returned.  On an error the target is as it
    was. *)
Definition Unmarshal (b : string) (target : string)
  : string * option error :=
  match skipSpace b with
  | String c rest =>
      if (code c =? 34)%N then
        match unquote rest with
        | Some (t, after) =>
            if atEnd after then (t, None) else (target, Some DecodeError)
        | None => (target, Some DecodeError)
        end
      else
        match String c rest with
        | String "n" (String "u" (String "l" (String "l" after))) =>
            if atEnd after then (target, None)
            else (target, Some DecodeError)
        | _ => (target, Some DecodeError)
        end
  | EmptyString => (target, Some DecodeError)
  end.

End json.

(** * The part of [strconv] that [database/sql] relies on *)

Module strconv.

Definition digitVal (c : ascii) : option Z :=
  let n := Z.of_N (N_of_ascii c) in
  if (48 <=? n)%Z && (n <=? 57)%Z then Some (n - 48)%Z else None.

(** The digits of [ParseUint(s, 10, _)], most significant first. *)
Fixpoint parseDigits (s : string) (acc : Z) : option Z :=
  match s with
  | EmptyString => Some acc
  | String c rest =>
      match digitVal c with
      | Some d => parseDigits rest (acc * 10 + d)%Z
      | None => None
      end
  end.

(** [strconv.ParseInt(s, 10, 64)]: an optional sign and at least one
    decimal digit, the value within the 64-bit range; [None] for a
    syntax or a range error. *)
Definition ParseInt (s : string) : option Z :=
  match s with
  | EmptyString => None
  | String c rest =>
      let neg := Ascii.eqb c "-" in
      let digits := if Ascii.eqb c "+" || neg then rest else s in
      match digits with
      | EmptyString => None
      | _ =>
          match parseDigits digits 0 with
          | None => None
          | Some un =>
              if neg
              then if (2 ^ 63 <? un)%Z then None else Some (- un)%Z
              else if (2 ^ 63 <=? un)%Z then None else Some un
          end
      end
  end.

(** [strconv.FormatInt(n, 10)]. *)
Definition FormatInt (n : Z) : string := NilZero.string_of_int (Z.to_int n).

End strconv.

(** * The part of [database/sql] the file uses *)

(** A [time.Time], represented by its RFC 3339 rendering
    ([t.Format(time.RFC3339Nano)]), the only view of it a conversion
    takes. *)
Record Time := mkTime { RFC3339Nano : string }.

(** The zero value of [time.Time]. *)
Definition zeroTime : Time := mkTime "0001-01-01T00:00:00Z".

Module sql.

(** A column value as the driver hands it over: NULL, an integer
    ([int64]), text ([string] or [[]byte], which convert alike) or a
    timestamp. *)
Inductive Value :=
| VNull
| VInt (n : Z)
| VString (s : string)
| VTime (t : Time).

(** Why [convertAssign] refuses a value. *)
Inductive convError :=
| ConvNull          (* converting NULL to %s is unsupported *)
| ConvParse         (* converting driver.Value type %T (%q) to a %s *)
| ConvUnsupported.  (* unsupported Scan, storing driver.Value type %T into type %T *)

(** The errors of the query layer. *)
Inductive error :=
| ErrQuery (msg : string)               (* returned by db.Query *)
| ErrScanArgs (columns dests : nat)     (* sql: expected %d destination arguments in Scan, not %d *)
| ErrScanColumn (index : nat) (cause : convError)
                                        (* sql: Scan error on column index %d *).

(** The range of [int64], and of [int] on a 64-bit platform. *)
Definition isInt64 (n : Z) : bool := (- 2 ^ 63 <=? n)%Z && (n <? 2 ^ 63)%Z.

(** [convertAssign(dest, src)] for [dest] of type [*int]: the source is
    rendered as text and parsed by [strconv.ParseInt]; for an integer
    source that gives the integer back when it is in range. *)
Definition assignInt (src : Value) : Z + convError :=
  match src with
  | VNull => inr ConvNull
  | VInt n => if isInt64 n then inl n else inr ConvParse
  | VString s =>
      match strconv.ParseInt s with
      | Some i => inl i
      | None => inr ConvParse
      end
  | VTime _ => inr ConvParse
  end.

(** [convertAssign(dest, src)] for [dest] of type [*string]. *)
Definition assignString (src : Value) : string + convError :=
  match src with
  | VNull => inr ConvNull
  | VInt n => inl (strconv.FormatInt n)
  | VString s => inl s
  | VTime t => inl (RFC3339Nano t)
  end.

(** [convertAssign(dest, src)] for [dest] of type [*time.Time]. *)
Definition assignTime (src : Value) : Time + convError :=
  match src with
  | VTime t => inl t
  | VNull | VInt _ | VString _ => inr ConvUnsupported
  end.

(** A destination pointer into a record of type [R]: storing a column
    value through it updates the record or fails. *)
Definition Dest (R : Type) : Type := Value -> R -> R * option convError.

(** A pointer to a field with setter [set], filled by [assign]. *)
Definition field {R A : Type} (assign : Value -> A + convError)
           (set : A -> R -> R) : Dest R :=
  fun src r =>
    match assign src with
    | inl a => (set a r, None)
    | inr e => (r, Some e)
    end.

(** The loop of [Rows.Scan] over the columns of the current row. *)
Fixpoint scanColumns {R : Type} (i : nat) (cols : list Value)
         (dest : list (Dest R)) (r : R) : R * option error :=
  match cols, dest with
  | sv :: cols', d :: dest' =>
      match d sv r with
      | (r', None) => scanColumns (S i) cols' dest' r'
      | (r', Some e) => (r', Some (ErrScanColumn i e))
      end
  | _, _ => (r, None)
  end.

(** [rows.Scan(dest...)]: the columns of the current row are stored, in
    order, through the destinations; as many destinations as columns. *)
Definition Scan {R : Type} (cols : list Value) (dest : list (Dest R))
           (r : R) : R * option error :=
  if (List.length dest =? List.length cols)%nat
  then scanColumns 0 cols dest r
  else (r, Some (ErrScanArgs (List.length cols) (List.length dest))).

(** The result set of a query: the names of its columns and its rows. *)
Record Rows := mkRows {
  Columns : list string;
  Data : list (list Value)
}.

(** The database behind [db]: what a statement returns, and the
    statements issued so far. *)
Record DB := mkDB {
  exec : string -> Rows + error;
  issued : list string
}.

(** [db.Query(stmt)]. *)
Definition Query (db : DB) (stmt : string) : DB * (Rows + error) :=
  (mkDB (exec db) (issued db ++ [stmt])%list, exec db stmt).

End sql.

(** * The records *)

(** [NullString] wraps [sql.NullString]: [String_] is the [String] field
    and [Valid] tells whether it is not NULL. *)
Record NullString := mkNullString {
  String_ : string;
  Valid : bool
}.

Definition zeroNullString : NullString := mkNullString "" false.

(** [sql.NullString.Scan], promoted to [*NullString]. *)
Definition NullString_Scan : sql.Dest NullString :=
  fun value ns =>
    match value with
    | sql.VNull => (mkNullString "" false, None)
    | _ =>
        let ns := mkNullString (String_ ns) true in
        match sql.assignString value with
        | inl s => (mkNullString s (Valid ns), None)
        | inr e => (ns, Some e)
        end
    end.

(** [Wms] is the inventory database record structure that matches the
    fields in the v_inventory view. *)
Module Wms.

Record t := mk {
  Id : Z;
  StartTime : Time;
  StopTime : Time;
  SKU : NullString;
  Discrepancy : NullString;
  Aisle : string;
  Block : string;
  Slot : string;
  Shelf : string;
  DisplayName : string;
  Image : NullString
}.

(** [var record Wms]. *)
Definition zero : t :=
  mk 0 zeroTime zeroTime zeroNullString zeroNullString "" "" "" "" ""
     zeroNullString.

Definition setId v r :=
  mk v (StartTime r) (StopTime r) (SKU r) (Discrepancy r) (Aisle r)
     (Block r) (Slot r) (Shelf r) (DisplayName r) (Image r).
Definition setStartTime v r :=
  mk (Id r) v (StopTime r) (SKU r) (Discrepancy r) (Aisle r)
     (Block r) (Slot r) (Shelf r) (DisplayName r) (Image r).
Definition setStopTime v r :=
  mk (Id r) (StartTime r) v (SKU r) (Discrepancy r) (Aisle r)
     (Block r) (Slot r) (Shelf r) (DisplayName r) (Image r).
Definition setSKU v r :=
  mk (Id r) (StartTime r) (StopTime r) v (Discrepancy r) (Aisle r)
     (Block r) (Slot r) (Shelf r) (DisplayName r) (Image r).
Definition setDiscrepancy v r :=
  mk (Id r) (StartTime r) (StopTime r) (SKU r) v (Aisle r)
     (Block r) (Slot r) (Shelf r) (DisplayName r) (Image r).
Definition setAisle v r :=
  mk (Id r) (StartTime r) (StopTime r) (SKU r) (Discrepancy r) v
     (Block r) (Slot r) (Shelf r) (DisplayName r) (Image r).
Definition setBlock v r :=
  mk (Id r) (StartTime r) (StopTime r) (SKU r) (Discrepancy r) (Aisle r)
     v (Slot r) (Shelf r) (DisplayName r) (Image r).
Definition setSlot v r :=
  mk (Id r) (StartTime r) (StopTime r) (SKU r) (Discrepancy r) (Aisle r)
     (Block r) v (Shelf r) (DisplayName r) (Image r).
Definition setShelf v r :=
  mk (Id r) (StartTime r) (StopTime r) (SKU r) (Discrepancy r) (Aisle r)
     (Block r) (Slot r) v (DisplayName r) (Image r).
Definition setDisplayName v r :=
  mk (Id r) (StartTime r) (StopTime r) (SKU r) (Discrepancy r) (Aisle r)
     (Block r) (Slot r) (Shelf r) v (Image r).
Definition setImage v r :=
  mk (Id r) (StartTime r) (StopTime r) (SKU r) (Discrepancy r) (Aisle r)
     (Block r) (Slot r) (Shelf r) (DisplayName r) v.

(** A pointer to a [NullString] field: its [Scan] method is called. *)
Definition nullField (get : t -> NullString) (set : NullString -> t -> t)
  : sql.Dest t :=
  fun src r =>
    let (ns, err) := NullString_Scan src (get r) in (set ns r, err).

(** The destinations [FetchInventory] hands to [rows.Scan], in the order
    of the call. *)
Definition dest : list (sql.Dest t) :=
  [ sql.field sql.assignInt setId;
    sql.field sql.assignTime setStartTime;
    sql.field sql.assignTime setStopTime;
    nullField SKU setSKU;
    sql.field sql.assignString setAisle;
    sql.field sql.assignString setBlock;
    sql.field sql.assignString setSlot;
    sql.field sql.assignString setShelf;
    sql.field sql.assignString setDisplayName;
    nullField Discrepancy setDiscrepancy;
    nullField Image setImage ].

End Wms.

(** [WmsList] is a slice of [Wms]. *)
Definition WmsList := list Wms.t.

(** * The query service *)

(** The row loop of [FetchInventory]: [record] is the one variable every
    row is scanned into, [wl] the list built so far.  A failing [Scan]
    returns at once, with the named results as they stand. *)
Fixpoint inventoryLoop (rows : list (list sql.Value)) (record : Wms.t)
         (wl : WmsList) : WmsList * option sql.error :=
  match rows with
  | [] => (wl, None)
  | row :: rows' =>
      match sql.Scan row Wms.dest record with
      | (_, Some err) => (wl, Some err)
      | (record', None) => inventoryLoop rows' record' (wl ++ [record'])%list
      end
  end.

(** [FetchInventory] performs a query on v_inventory and returns the
    results in a [WmsList]. *)
Definition FetchInventory (db : sql.DB) (af : AisleFilter)
  : sql.DB * (WmsList * option sql.error) :=
  let (db', res) := sql.Query db (toSqlStmt af) in
  match res with
  | inr err => (db', ([], Some err))
  | inl rows => (db', inventoryLoop (sql.Data rows) Wms.zero [])
  end.

(** The statement of [fetchAisles]. *)
Definition aislesStmt : string :=
  "select distinct aisle from v_inventory order by aisle".

(** The row loop of [fetchAisles]. *)
Fixpoint aislesLoop (rows : list (list sql.Value)) (aisle : string)
         (aisleList : list string) : list string * option sql.error :=
  match rows with
  | [] => (aisleList, None)
  | row :: rows' =>
      match sql.Scan row [sql.field sql.assignString (fun v _ => v)] aisle with
      | (_, Some err) => (aisleList, Some err)
      | (aisle', None) => aislesLoop rows' aisle' (aisleList ++ [aisle'])%list
      end
  end.

(** [fetchAisles] performs a query on v_inventory and returns the results
    in an aisle list. *)
Definition fetchAisles (db : sql.DB) (filter : string)
  : sql.DB * (list string * option sql.error) :=
  let (db', res) := sql.Query db aislesStmt in
  match res with
  | inr err => (db', ([], Some err))
  | inl rows => (db', aislesLoop (sql.Data rows) "" [])
  end.

(** [aisleStats]: the per-aisle counts of the v_aisleStats view. *)
Module aisleStats.

Record t := mk {
  Id : string;
  NumberOccupied : Z;
  NumberEmpty : Z;
  NumberException : Z;
  NumberUnscanned : Z;
  LastScanned : string
}.

(** [var as aisleStats]. *)
Definition zero : t := mk "" 0 0 0 0 "".

Definition setId v r :=
  mk v (NumberOccupied r) (NumberEmpty r) (NumberException r)
     (NumberUnscanned r) (LastScanned r).
Definition setNumberOccupied v r :=
  mk (Id r) v (NumberEmpty r) (NumberException r)
     (NumberUnscanned r) (LastScanned r).
Definition setNumberEmpty v r :=
  mk (Id r) (NumberOccupied r) v (NumberException r)
     (NumberUnscanned r) (LastScanned r).
Definition setNumberException v r :=
  mk (Id r) (NumberOccupied r) (NumberEmpty r) v
     (NumberUnscanned r) (LastScanned r).
Definition setNumberUnscanned v r :=
  mk (Id r) (NumberOccupied r) (NumberEmpty r) (NumberException r)
     v (LastScanned r).
Definition setLastScanned v r :=
  mk (Id r) (NumberOccupied r) (NumberEmpty r) (NumberException r)
     (NumberUnscanned r) v.

(** The fields in the order of the declaration, each with its [db] tag
    and the pointer to it. *)
Definition fields : list (string * sql.Dest t) :=
  [ ("aisle", sql.field sql.assignString setId);
    ("numberOccupied", sql.field sql.assignInt setNumberOccupied);
    ("numberEmpty", sql.field sql.assignInt setNumberEmpty);
    ("numberException", sql.field sql.assignInt setNumberException);
    ("numberUnscanned", sql.field sql.assignInt setNumberUnscanned);
    ("lastScanned", sql.field sql.assignString setLastScanned) ].

End aisleStats.

Definition aisleStatsList := list aisleStats.t.

(** Modelled from the spec: [StructForScan] is called by [fetchAisleStats]
    with the address of the record and nothing else, and is defined
    outside this file.  The spec (9) describes the pattern as scanning a
    result row into a record's fields via pointer introspection: the list
    of the pointers to the fields of the record, in the order of its
    declaration.  [rows.Scan] then binds the columns to them by
    position. *)
Definition StructForScan (fields : list (string * sql.Dest aisleStats.t))
  : list (sql.Dest aisleStats.t) :=
  List.map snd fields.

(** The statement of [fetchAisleStats]. *)
Definition aisleStatsStmt : string :=
  "select distinct aisle, numberException, numberEmpty, numberOccupied, numberUnscanned, lastScanned from v_aisleStats".

(** The columns that statement projects, in its order. *)
Definition aisleStatsColumns : list string :=
  ["aisle"; "numberException"; "numberEmpty"; "numberOccupied";
   "numberUnscanned"; "lastScanned"].

(** The row loop of [fetchAisleStats]: [as_] is the one variable every
    row is scanned into, through the destinations [StructForScan] builds
    from it. *)
Fixpoint aisleStatsLoop (rows : list (list sql.Value)) (as_ : aisleStats.t)
         (asl : aisleStatsList) : aisleStatsList * option sql.error :=
  match rows with
  | [] => (asl, None)
  | row :: rows' =>
      match sql.Scan row (StructForScan aisleStats.fields) as_ with
      | (_, Some err) => (asl, Some err)
      | (as', None) => aisleStatsLoop rows' as' (asl ++ [as'])%list
      end
  end.

(** [fetchAisleStats]: the stats of every aisle. *)
Definition fetchAisleStats (db : sql.DB)
  : sql.DB * (aisleStatsList * option sql.error) :=
  let (db', res) := sql.Query db aisleStatsStmt in
  match res with
  | inr err => (db', ([], Some err))
  | inl rows =>
      (db', aisleStatsLoop (sql.Data rows) aisleStats.zero [])
  end.

(** * The handlers *)

(** What a handler passes to [jsonApi]. *)
Inductive Payload :=
| PStats (asl : aisleStatsList)
| PInventory (wl : WmsList).

(** The two shapes of a response body. *)
Inductive Response :=
| Keyed (entries : list (string * aisleStats.t))
| Flat (records : WmsList).

(** Modelled from the spec: [jsonApi], the emitter the handlers call, is
    defined outside this file.  The spec (4.5): the stats are emitted as a
    mapping keyed by aisle id, an inventory as a flat sequence.  What its
    boolean argument selects is not described; it is not modelled, and the
    error it may return is taken to be nil. *)
Definition jsonApi (records : Payload) (flag : bool) : Response :=
  match records with
  | PStats asl => Keyed (List.map (fun a => (aisleStats.Id a, a)) asl)
  | PInventory wl => Flat wl
  end.

(** A line of the log. *)
Inductive LogEntry :=
| LogError (err : sql.error)
| LogLine (s : string).

(** [if err != nil { log.Println(err) }]. *)
Definition logError (err : option sql.error) : list LogEntry :=
  match err with
  | Some e => [LogError e]
  | None => []
  end.

(** What a request leaves behind: the database, the log and the response. *)
Record Handled := mkHandled {
  database : sql.DB;
  logged : list LogEntry;
  response : Response
}.

Definition handleApiAisles (db : sql.DB) (path : string) : Handled :=
  let af := aislesFilter path in
  if String.eqb (Aisle af) ""
  then
    let '(db', (asl, err)) := fetchAisleStats db in
    mkHandled db' (logError err) (jsonApi (PStats asl) false)
  else
    let '(db', (wl, err)) := FetchInventory db af in
    mkHandled db' (logError err) (jsonApi (PInventory wl) true).

Definition handleApiDiscrepancies (db : sql.DB) (path : string) : Handled :=
  let af := discrepanciesFilter path in
  let seen :=
    match lastSegment (strings.Split path "/") with
    | Some ls => [LogLine ls]
    | None => []
    end in
  let '(db', (wl, err)) := FetchInventory db af in
  mkHandled db' (seen ++ logError err)%list (jsonApi (PInventory wl) false).

(** * [NullString] on the wire *)

Section NullStringCodec.

(** [json.Marshal] of a string: its quoted, escaped form.  Which bytes it
    escapes is the library's choice and no property below depends on it. *)
Variable json_Marshal : string -> string.

(** [MarshalJSON] for [NullString]. *)
Definition MarshalJSON (ns : NullString) : string * option json.error :=
  if negb (Valid ns)
  then (String DQ (String DQ ""), None)
  else (json_Marshal (String_ ns), None).

End NullStringCodec.

(** [UnmarshalJSON] for [NullString]. *)
Definition UnmarshalJSON (b : string) (ns : NullString)
  : NullString * option json.error :=
  let (s, err) := json.Unmarshal b (String_ ns) in
  (mkNullString s (match err with None => true | Some _ => false end), err).

(** * Notions the properties are stated with *)

(** The segment rule as the specification words it: the last non-empty
    component of the split path. *)
Definition lastNonEmpty (sl : list string) : string :=
  List.last (List.filter (fun c => negb (String.eqb c "")) sl) "".

(** The statement whose one predicate is the equality of the discrepancy
    with [v]. *)
Definition exactMatchStmt (v : string) : string :=
  Stmt.sel ++ " where " ++ Stmt.discrepancyEq v ++ " " ++ Stmt.order.

(** An entry of the [where] slice that constrains the aisle. *)
Definition isAisleConstraint (clause : string) : bool :=
  strings.HasPrefix clause "aisle =".

(** The record a row maps to when it is scanned on its own. *)
Definition mapRow (row : list sql.Value) : Wms.t + sql.error :=
  match sql.Scan row Wms.dest Wms.zero with
  | (record, None) => inl record
  | (_, Some err) => inr err
  end.

(** ** Sample data *)

Definition noon : Time := mkTime "2024-01-01T12:00:00Z".

(** A row of v_inventory: an occupied slot without discrepancy or image. *)
Definition slotRow : list sql.Value :=
  [ sql.VInt 1; sql.VTime noon; sql.VTime noon; sql.VString "SKU-1";
    sql.VString "A1"; sql.VString "B1"; sql.VString "S1";
    sql.VString "top"; sql.VString "A1-B1-S1"; sql.VNull; sql.VNull ].

Definition slotRecord : Wms.t :=
  Wms.mk 1 noon noon (mkNullString "SKU-1" true) zeroNullString
         "A1" "B1" "S1" "top" "A1-B1-S1" zeroNullString.

(** A row whose aisle is NULL: it cannot be stored into the [string]
    field [Aisle]. *)
Definition nullAisleRow : list sql.Value :=
  [ sql.VInt 2; sql.VTime noon; sql.VTime noon; sql.VString "SKU-2";
    sql.VNull; sql.VString "B1"; sql.VString "S2";
    sql.VString "top"; sql.VString "A1-B1-S2"; sql.VNull; sql.VNull ].

Definition inventoryColumns : list string :=
  ["inventoryId"; "startTime"; "stopTime"; "sku"; "aisle"; "block";
   "slot"; "shelf"; "displayName"; "discrepancy"; "imageUrl"].

(** A database that answers every statement with a good row followed by
    the row that does not map. *)
Definition dbWithNullAisle : sql.DB :=
  sql.mkDB (fun _ => inl (sql.mkRows inventoryColumns [slotRow; nullAisleRow]))
           [].

(** The stats row of the specification's example, in the order of the
    statement's columns: aisle, exception, empty, occupied, unscanned,
    last scanned. *)
Definition statsRowA1 : list sql.Value :=
  [ sql.VString "A1"; sql.VInt 0; sql.VInt 2; sql.VInt 5; sql.VInt 1;
    sql.VString "2024-01-01T00:00:00Z" ].

Definition dbStatsA1 : sql.DB :=
  sql.mkDB (fun _ => inl (sql.mkRows aisleStatsColumns [statsRowA1])) [].


(** ** [NullString] as CSV *)

(** [MarshalCSV] for [NullString]; [error] is the type of the error it
    returns, which is always nil. *)
Definition MarshalCSV (error : Type) (ns : NullString)
  : string * option error :=
  if negb (Valid ns) then ("", None) else (String_ ns, None).

(** The text a [NullString] presents: its string when valid, nothing
    otherwise. *)
Definition presented (ns : NullString) : string :=
  if Valid ns then String_ ns else "".

(** ** Texts of a simple shape *)

(** A byte a JSON string literal holds as it is: printable ASCII other
    than the quote and the backslash. *)
Definition isPlain (c : ascii) : bool :=
  let n := json.code c in
  negb (n =? 34)%N && negb (n =? 92)%N && negb (n <? 32)%N && (n <? 128)%N.

Fixpoint allPlain (s : string) : bool :=
  match s with
  | EmptyString => true
  | String c rest => isPlain c && allPlain rest
  end.

(** Only JSON white space. *)
Fixpoint allSpace (s : string) : bool :=
  match s with
  | EmptyString => true
  | String c rest => json.isSpace c && allSpace rest
  end.

(** A value without the single quote that ends an SQL literal. *)
Definition quoteFree (s : string) : bool := negb (strings.Contains s "'").

(** The rows of a one-column result whose values are the texts [names]. *)
Definition textRows (names : list string) : list (list sql.Value) :=
  List.map (fun a => [sql.VString a]) names.

(** A database that fails every statement with [err]. *)
Definition dbDown (err : sql.error) : sql.DB :=
  sql.mkDB (fun _ => inr err) [].

(** A database that answers every statement with the one-column rows
    [rows]. *)
Definition dbAisles (rows : list (list sql.Value)) : sql.DB :=
  sql.mkDB (fun _ => inl (sql.mkRows ["aisle"] rows)) [].

(** A nullable text column: NULL, or a text. *)
Definition nullableColumn (o : option string) : sql.Value :=
  match o with
  | None => sql.VNull
  | Some t => sql.VString t
  end.

(** The [NullString] of a nullable text: absent, or present with it. *)
Definition nullStringOf (o : option string) : NullString :=
  match o with
  | None => mkNullString "" false
  | Some t => mkNullString t true
  end.

(** * Checks of the library models on small inputs *)

Example split_aisle_path :
  strings.Split "/aisles/A1" "/" = [""; "aisles"; "A1"].
Proof. reflexivity. Qed.

Example split_trailing_slash :
  strings.Split "/aisles/" "/" = [""; "aisles"; ""].
Proof. reflexivity. Qed.

Example split_empty : strings.Split "" "/" = [""].
Proof. reflexivity. Qed.

Example stmt_aisle_and_all :
  toSqlStmt (mkAisleFilter "A1" "all") =
  Stmt.sel ++ " where aisle ='A1' and discrepancy !="
           ++ String DQ (String DQ "  order by aisle, block, slot").
Proof. reflexivity. Qed.

Example unmarshal_plain :
  json.Unmarshal (String DQ ("A1" ++ String DQ " ")) "old" = ("A1", None).
Proof. reflexivity. Qed.

Example unmarshal_escape :
  json.Unmarshal (String DQ ("aA\n" ++ String DQ "")) "" =
  ("aA" ++ String (ascii_of_nat 10) "", None).
Proof. reflexivity. Qed.

Example unmarshal_unicode :
  json.Unmarshal (String DQ ("\u0041\u00e9\ud83d\ude00\ud83dx" ++ String DQ "")) "" =
  ("A" ++ String (ascii_of_nat 195) (String (ascii_of_nat 169)
         (String (ascii_of_nat 240) (String (ascii_of_nat 159)
           (String (ascii_of_nat 152) (String (ascii_of_nat 128)
             (String (ascii_of_nat 239) (String (ascii_of_nat 191)
               (String (ascii_of_nat 189) "x")))))))), None).
Proof. reflexivity. Qed.

Example unmarshal_null : json.Unmarshal "null" "old" = ("old", None).
Proof. reflexivity. Qed.

Example unmarshal_number : json.Unmarshal "12" "old" = ("old", Some json.DecodeError).
Proof. reflexivity. Qed.

Example parse_int_signed : strconv.ParseInt "-42" = Some (-42)%Z.
Proof. reflexivity. Qed.

Example parse_int_bare_sign : strconv.ParseInt "+" = None.
Proof. reflexivity. Qed.

Example format_int_zero : strconv.FormatInt 0 = "0".
Proof. reflexivity. Qed.

Example format_int_neg : strconv.FormatInt (-17) = "-17".
Proof. reflexivity. Qed.

(** * Strings: append, split and join *)

Lemma append_assoc (a b c : string) : (a ++ b) ++ c = a ++ (b ++ c).
Proof.
  induction a as [|x a IH]; simpl; [reflexivity | now rewrite IH].
Qed.

Lemma length_append (a b : string) :
  String.length (a ++ b) = String.length a + String.length b.
Proof.
  induction a as [|x a IH]; simpl; [reflexivity | now rewrite IH].
Qed.

Lemma append_inj_l (p a b : string) : p ++ a = p ++ b -> a = b.
Proof.
  induction p as [|x p IH]; simpl; intros H; [exact H|].
  injection H as H. now apply IH.
Qed.

Lemma append_inj_r (t a b : string) : a ++ t = b ++ t -> a = b.
Proof.
  revert b. induction a as [|x a IH]; intros [|y b] H; simpl in H.
  - reflexivity.
  - apply (f_equal String.length) in H. simpl in H.
    rewrite length_append in H. lia.
  - apply (f_equal String.length) in H. simpl in H.
    rewrite length_append in H. lia.
  - injection H as Hxy H. subst y. f_equal. now apply IH.
Qed.

Lemma Split_not_nil (s : string) (sep : ascii) : strings.Split s sep <> [].
Proof.
  destruct s as [|c s]; simpl; [discriminate|].
  destruct (Ascii.eqb c sep); [discriminate|].
  destruct (strings.Split s sep); discriminate.
Qed.

Lemma Contains_slash_cons (c : ascii) (s : string) :
  strings.Contains (String c s) "/" =
  Ascii.eqb c "/" || strings.Contains s "/".
Proof.
  cbn [strings.Contains strings.HasPrefix].
  now rewrite andb_true_r, (Ascii.eqb_sym "/" c).
Qed.

(** A string without the separator is its own single component. *)
Lemma Split_no_sep (s : string) :
  strings.Contains s "/" = false -> strings.Split s "/" = [s].
Proof.
  induction s as [|c s IH]; intros H; [reflexivity|].
  rewrite Contains_slash_cons in H. apply orb_false_elim in H as [Hc Hs].
  cbn [strings.Split]. now rewrite Hc, (IH Hs).
Qed.

(** Splitting distributes over a separator. *)
Lemma Split_app_sep (p s : string) (sep : ascii) :
  strings.Split (p ++ String sep s) sep =
  (strings.Split p sep ++ strings.Split s sep)%list.
Proof.
  induction p as [|c p IH]; simpl.
  - now rewrite Ascii.eqb_refl.
  - destruct (Ascii.eqb c sep); rewrite IH; [reflexivity|].
    destruct (strings.Split p sep) as [|hd tl] eqn:E; [|reflexivity].
    now apply Split_not_nil in E.
Qed.

(** The last component is the text after the last separator. *)
Lemma last_Split_after_sep (p s : string) :
  strings.Contains s "/" = false ->
  List.last (strings.Split (p ++ "/" ++ s) "/") "" = s.
Proof.
  intros H. change ("/" ++ s) with (String "/" s).
  rewrite Split_app_sep, (Split_no_sep s H). apply last_last.
Qed.

(** Every path is free of separators or ends in a separator-free segment. *)
Lemma path_shape (path : string) :
  strings.Contains path "/" = false \/
  exists p s, path = p ++ "/" ++ s /\ strings.Contains s "/" = false.
Proof.
  induction path as [|c path IH]; [now left|].
  destruct IH as [H | (p & s & -> & H)].
  - destruct (Ascii.eqb_spec c "/") as [E|E].
    + right. exists "", path. subst c. now split.
    + left. rewrite Contains_slash_cons, H.
      now destruct (Ascii.eqb_spec c "/").
  - right. exists (String c p), s. now split.
Qed.

Lemma lastSegment_Split (path : string) :
  lastSegment (strings.Split path "/") =
  Some (List.last (strings.Split path "/") "").
Proof.
  unfold lastSegment.
  destruct (strings.Split path "/") eqn:E; [|reflexivity].
  now apply Split_not_nil in E.
Qed.

(** The filters of the two routes, in terms of the last component. *)
Lemma aislesFilter_last (path : string) :
  aislesFilter path =
  mkAisleFilter (List.last (strings.Split path "/") "") "".
Proof.
  unfold aislesFilter. rewrite lastSegment_Split.
  destruct (String.eqb_spec (List.last (strings.Split path "/") "") "") as [E|E];
    simpl; [now rewrite E | reflexivity].
Qed.

Lemma discrepanciesFilter_last (path : string) :
  discrepanciesFilter path =
  mkAisleFilter ""
    (if String.eqb (List.last (strings.Split path "/") "") "" then "all"
     else List.last (strings.Split path "/") "").
Proof.
  unfold discrepanciesFilter. rewrite lastSegment_Split.
  now destruct (String.eqb (List.last (strings.Split path "/") "") "").
Qed.

(** * The compiled statement *)

Lemma whereClauses_split (a d : string) :
  whereClauses (mkAisleFilter a d) =
  (whereClauses (mkAisleFilter a "") ++ whereClauses (mkAisleFilter "" d))%list.
Proof.
  unfold whereClauses; simpl.
  destruct (String.eqb a ""), (String.eqb d "all"), (String.eqb d "");
    reflexivity.
Qed.

Lemma whereClauses_aisle (a : string) :
  a <> "" -> whereClauses (mkAisleFilter a "") = [Stmt.aisleEq a].
Proof.
  intros H. unfold whereClauses; simpl.
  now destruct (String.eqb_spec a "").
Qed.

Lemma whereClauses_all : whereClauses (mkAisleFilter "" "all") =
                         [Stmt.discrepancyNotEmpty].
Proof. reflexivity. Qed.

Lemma whereClauses_exact (v : string) :
  v <> "all" -> v <> "" ->
  whereClauses (mkAisleFilter "" v) = [Stmt.discrepancyEq v].
Proof.
  intros Hall Hne. unfold whereClauses; simpl.
  destruct (String.eqb_spec v "all"); [contradiction|].
  now destruct (String.eqb_spec v "").
Qed.

Lemma toSqlStmt_exact (v : string) :
  v <> "all" -> v <> "" ->
  toSqlStmt (mkAisleFilter "" v) = exactMatchStmt v.
Proof.
  intros Hall Hne. unfold toSqlStmt.
  now rewrite (whereClauses_exact v Hall Hne).
Qed.

Lemma exactMatchStmt_inj (v w : string) :
  exactMatchStmt v = exactMatchStmt w -> v = w.
Proof.
  unfold exactMatchStmt, Stmt.discrepancyEq. intros H.
  apply append_inj_l in H. apply append_inj_l in H.
  rewrite !append_assoc in H. apply append_inj_l in H.
  now apply append_inj_r in H.
Qed.

(** C5: when the discrepancy is "all" the predicate the filter compiles to
    is the text [discrepancy !=""] (not equal to the empty string); when it
    is another non-empty string [v] the predicate is the equality
    [discrepancy ='v'].  In both cases it follows the aisle predicate, if
    there is one. *)
Theorem discrepancy_predicate_by_mode (a v : string) :
  whereClauses (mkAisleFilter a "all") =
    (whereClauses (mkAisleFilter a "") ++
     [("discrepancy !=" ++ String DQ (String DQ " "))%string])%list /\
  toSqlStmt (mkAisleFilter "" "all") =
    Stmt.sel ++ " where discrepancy !=" ++ String DQ (String DQ " ")
             ++ " order by aisle, block, slot" /\
  (v <> "all" -> v <> "" ->
   whereClauses (mkAisleFilter a v) =
     (whereClauses (mkAisleFilter a "") ++
      [("discrepancy ='" ++ v ++ "'")%string])%list /\
   toSqlStmt (mkAisleFilter "" v) =
     Stmt.sel ++ " where discrepancy ='" ++ v
              ++ "' order by aisle, block, slot").
Proof.
  split; [now rewrite whereClauses_split|].
  split; [reflexivity|].
  intros Hall Hne. split.
  - now rewrite whereClauses_split, (whereClauses_exact v Hall Hne).
  - rewrite (toSqlStmt_exact v Hall Hne).
    unfold exactMatchStmt, Stmt.discrepancyEq.
    now rewrite !append_assoc.
Qed.

(** The filter of aisle A1 with "all", and with the note "damaged". *)
Lemma discrepancy_predicate_by_mode_witness :
  whereClauses (mkAisleFilter "A1" "all") =
    ["aisle ='A1'"; "discrepancy !=" ++ String DQ (String DQ " ")] /\
  whereClauses (mkAisleFilter "A1" "damaged") =
    ["aisle ='A1'"; "discrepancy ='damaged'"] /\
  toSqlStmt (mkAisleFilter "" "damaged") =
    Stmt.sel ++ " where discrepancy ='damaged' order by aisle, block, slot".
Proof.
  destruct (discrepancy_predicate_by_mode "A1" "damaged") as (H1 & _ & H2).
  destruct H2 as [H2 H3]; [discriminate | discriminate |].
  split; [exact H1 | split; [exact H2 | exact H3]].
Defined.

(** C6: a filter with a non-empty aisle [x] compiles to a [where] slice
    with exactly one aisle constraint, the equality [aisle ='x'], and when
    a discrepancy predicate is present too the statement joins the two
    with [and]. *)
Theorem one_aisle_constraint_joined_by_and (x d : string) :
  x <> "" ->
  List.filter isAisleConstraint (whereClauses (mkAisleFilter x d)) =
    ["aisle ='" ++ x ++ "'"] /\
  (d <> "" ->
   exists dp,
     whereClauses (mkAisleFilter "" d) = [dp] /\
     whereClauses (mkAisleFilter x d) = ["aisle ='" ++ x ++ "'"; dp] /\
     toSqlStmt (mkAisleFilter x d) =
       Stmt.sel ++ " where " ++ ("aisle ='" ++ x ++ "'") ++ " and " ++ dp
                ++ " " ++ Stmt.order).
Proof.
  intros Hx.
  assert (Hd : exists ds, whereClauses (mkAisleFilter "" d) = ds /\
                          List.filter isAisleConstraint ds = [] /\
                          (d <> "" -> exists dp, ds = [dp])).
  { destruct (String.eqb_spec d "all") as [->|Hall].
    - exists [Stmt.discrepancyNotEmpty]. repeat split. now eexists.
    - destruct (String.eqb_spec d "") as [->|Hne].
      + exists []. repeat split. contradiction.
      + exists [Stmt.discrepancyEq d].
        rewrite (whereClauses_exact d Hall Hne). repeat split. now eexists. }
  destruct Hd as (ds & Hds & Hnone & Hone).
  rewrite whereClauses_split, (whereClauses_aisle x Hx), Hds.
  split.
  - cbn [List.app List.filter]. rewrite Hnone. reflexivity.
  - intros Hd. destruct (Hone Hd) as [dp ->]. exists dp.
    repeat split. unfold toSqlStmt.
    rewrite whereClauses_split, (whereClauses_aisle x Hx), Hds.
    cbn [List.app List.length Nat.ltb Nat.leb strings.Join].
    unfold Stmt.aisleEq. now rewrite !append_assoc.
Qed.

(** Aisle A1 together with "all". *)
Lemma one_aisle_constraint_joined_by_and_witness :
  List.filter isAisleConstraint (whereClauses (mkAisleFilter "A1" "all")) =
    ["aisle ='A1'"] /\
  exists dp,
    whereClauses (mkAisleFilter "" "all") = [dp] /\
    whereClauses (mkAisleFilter "A1" "all") = ["aisle ='A1'"; dp] /\
    toSqlStmt (mkAisleFilter "A1" "all") =
      Stmt.sel ++ " where " ++ "aisle ='A1'" ++ " and " ++ dp
               ++ " " ++ Stmt.order.
Proof.
  destruct (one_aisle_constraint_joined_by_and "A1" "all") as [H1 H2];
    [discriminate|].
  split; [exact H1 | apply H2; discriminate].
Defined.

(** C7: whatever the filter, the statement ends with the ordering clause
    [order by aisle, block, slot]; and with neither an aisle nor a
    discrepancy it is the projection over the view followed by that
    clause, without any [where]. *)
Theorem statement_ends_with_fixed_order (af : AisleFilter) :
  (exists body, toSqlStmt af = body ++ " order by aisle, block, slot") /\
  toSqlStmt (mkAisleFilter "" "") = Stmt.sel ++ " " ++ Stmt.order /\
  toSqlStmt (mkAisleFilter "" "") =
    "select inventoryId, startTime, stopTime, sku, aisle, block, slot, shelf, displayName, discrepancy, imageUrl from v_inventory  order by aisle, block, slot" /\
  strings.Contains (toSqlStmt (mkAisleFilter "" "")) "where" = false.
Proof.
  split; [|repeat split].
  unfold toSqlStmt.
  destruct (0 <? List.length (whereClauses af))%nat.
  - exists (Stmt.sel ++ " where " ++ strings.Join (whereClauses af) " and ").
    now rewrite !append_assoc.
  - now exists Stmt.sel.
Qed.

(** * Routing: the segment a handler filters on *)

(** C3, as stated, fails: for the path [/discrepancies], which has no
    trailing segment after the base name, the handler does not fall back
    to "all"; it filters on the base name itself. *)
Lemma discrepancies_base_path_is_not_all :
  discrepanciesFilter "/discrepancies" = mkAisleFilter "" "discrepancies" /\
  Discrepancy (discrepanciesFilter "/discrepancies") <> "all".
Proof. split; [reflexivity | discriminate]. Qed.

(** C3, amended: on the discrepancies route the filter has no aisle, and
    its discrepancy is "all" when the last component of the path (the text
    after the last [/]) is empty and that component otherwise; so a path
    that ends in [/], such as [/discrepancies/], gives "all". *)
Theorem discrepancy_defaults_to_all_on_empty_last_component
        (path base : string) :
  discrepanciesFilter path =
    mkAisleFilter ""
      (if String.eqb (List.last (strings.Split path "/") "") "" then "all"
       else List.last (strings.Split path "/") "") /\
  discrepanciesFilter (base ++ "/") = mkAisleFilter "" "all" /\
  discrepanciesFilter "/discrepancies/" = mkAisleFilter "" "all".
Proof.
  split; [apply discrepanciesFilter_last | split; [|reflexivity]].
  rewrite discrepanciesFilter_last.
  change (base ++ "/") with (base ++ "/" ++ "").
  now rewrite (last_Split_after_sep base "" eq_refl).
Qed.

(** C4, as stated, fails: in [/aisles/A1/] the last non-empty component
    is [A1], yet both handlers take the path as carrying no filter. *)
Lemma trailing_slash_drops_the_segment :
  lastNonEmpty (strings.Split "/aisles/A1/" "/") = "A1" /\
  Aisle (aislesFilter "/aisles/A1/") = "" /\
  lastNonEmpty (strings.Split "/discrepancies/late/" "/") = "late" /\
  Discrepancy (discrepanciesFilter "/discrepancies/late/") = "all".
Proof. repeat split. Qed.

(** C4, amended: the segment a handler filters on is the last component
    of the path split on [/], that is the text [s] after the last [/] (or
    the whole path when it has none), whether or not it is empty; when it
    is empty there is no filter (no aisle; discrepancy "all"), whatever
    the components before it. *)
Theorem filter_segment_is_last_component (p s : string) :
  strings.Contains s "/" = false ->
  Aisle (aislesFilter (p ++ "/" ++ s)) = s /\
  Discrepancy (discrepanciesFilter (p ++ "/" ++ s)) =
    (if String.eqb s "" then "all" else s) /\
  Aisle (aislesFilter s) = s /\
  Discrepancy (discrepanciesFilter s) =
    (if String.eqb s "" then "all" else s).
Proof.
  intros H.
  rewrite !aislesFilter_last, !discrepanciesFilter_last.
  rewrite (last_Split_after_sep p s H), (Split_no_sep s H).
  repeat split.
Qed.

(** The path [/aisles/A1/], whose last component is empty. *)
Lemma filter_segment_is_last_component_witness :
  Aisle (aislesFilter ("/aisles/A1" ++ "/" ++ "")) = "" /\
  Discrepancy (discrepanciesFilter ("/aisles/A1" ++ "/" ++ "")) = "all" /\
  Aisle (aislesFilter "") = "" /\
  Discrepancy (discrepanciesFilter "") = "all".
Proof.
  apply (filter_segment_is_last_component "/aisles/A1" ""). reflexivity.
Defined.

(** * The reserved value "all" *)

Lemma aisleEq_not_discrepancyEq (a v : string) :
  Stmt.aisleEq a <> Stmt.discrepancyEq v.
Proof. discriminate. Qed.

Lemma toSqlStmt_discrepanciesFilter_not_exact_all (path : string) :
  toSqlStmt (discrepanciesFilter path) <> exactMatchStmt "all".
Proof.
  rewrite discrepanciesFilter_last.
  set (seg := List.last (strings.Split path "/") "").
  assert (Hall : toSqlStmt (mkAisleFilter "" "all") <> exactMatchStmt "all").
  { intros H. apply append_inj_l in H. discriminate. }
  destruct (String.eqb_spec seg "") as [_|Hne]; [exact Hall|].
  destruct (String.eqb_spec seg "all") as [->|Hnall]; [exact Hall|].
  rewrite (toSqlStmt_exact seg Hnall Hne). intros H.
  now apply exactMatchStmt_inj in H.
Qed.

Lemma toSqlStmt_aislesFilter_not_exact_all (path : string) :
  toSqlStmt (aislesFilter path) <> exactMatchStmt "all".
Proof.
  rewrite aislesFilter_last.
  set (seg := List.last (strings.Split path "/") "").
  destruct (String.eqb_spec seg "") as [->|Hne].
  - intros H. apply append_inj_l in H. discriminate.
  - unfold toSqlStmt. rewrite (whereClauses_aisle seg Hne).
    intros H. cbn [List.length Nat.ltb Nat.leb strings.Join] in H.
    apply append_inj_l in H. discriminate.
Qed.

Lemma whereClauses_all_has_no_equality (a : string) :
  ~ In (Stmt.discrepancyEq "all") (whereClauses (mkAisleFilter a "all")).
Proof.
  rewrite whereClauses_split, whereClauses_all.
  unfold whereClauses; cbn [Aisle Discrepancy].
  destruct (String.eqb a ""); cbn; intros H.
  - destruct H as [H|[]]. discriminate.
  - destruct H as [H|[H|[]]]; discriminate.
Qed.

(** Each handler issues one statement. *)
Lemma handleApiDiscrepancies_issues (db : sql.DB) (path : string) :
  sql.issued (database (handleApiDiscrepancies db path)) =
  (sql.issued db ++ [toSqlStmt (discrepanciesFilter path)])%list.
Proof.
  unfold handleApiDiscrepancies, FetchInventory, sql.Query.
  destruct (sql.exec db (toSqlStmt (discrepanciesFilter path))) as [rows|e];
    [destruct (inventoryLoop _ _ _)|]; reflexivity.
Qed.

Lemma handleApiAisles_issues (db : sql.DB) (path : string) :
  sql.issued (database (handleApiAisles db path)) =
  (sql.issued db ++
   [if String.eqb (Aisle (aislesFilter path)) "" then aisleStatsStmt
    else toSqlStmt (aislesFilter path)])%list.
Proof.
  unfold handleApiAisles.
  destruct (String.eqb (Aisle (aislesFilter path)) "").
  - unfold fetchAisleStats, sql.Query.
    destruct (sql.exec db aisleStatsStmt) as [rows|e];
      [destruct (aisleStatsLoop _ _ _)|]; reflexivity.
  - unfold FetchInventory, sql.Query.
    destruct (sql.exec db (toSqlStmt (aislesFilter path))) as [rows|e];
      [destruct (inventoryLoop _ _ _)|]; reflexivity.
Qed.

(** C9, as stated, fails: values are copied into the statement as they
    are, so a segment that holds a quote ends the literal it is put in.
    The request [/discrepancies/all' and '1'='1] makes the handler issue a
    statement whose [where] clause is the equality [discrepancy ='all']
    joined to a condition that always holds: an exact match on "all" is
    emitted, and it selects exactly the records noted "all". *)
Lemma crafted_segment_issues_equality_on_all :
  sql.issued (database (handleApiDiscrepancies dbWithNullAisle
                          "/discrepancies/all' and '1'='1")) =
    [Stmt.sel ++ " where " ++ Stmt.discrepancyEq "all"
              ++ " and '1'='1' order by aisle, block, slot"] /\
  strings.Contains
    (toSqlStmt (discrepanciesFilter "/discrepancies/all' and '1'='1"))
    "discrepancy ='all'" = true.
Proof. split; reflexivity. Qed.

(** C9, amended: with the discrepancy set to "all" the filter compiles to
    the not-equal-to-empty predicate and its [where] slice never holds
    the entry [discrepancy ='all']; and no request path, on either route,
    makes a handler compile that entry or issue the statement whose one
    predicate it is. *)
Theorem all_is_reserved (a : string) (db : sql.DB) (path : string) :
  whereClauses (mkAisleFilter a "all") =
    (whereClauses (mkAisleFilter a "") ++ [Stmt.discrepancyNotEmpty])%list /\
  ~ In (Stmt.discrepancyEq "all") (whereClauses (mkAisleFilter a "all")) /\
  ~ In (Stmt.discrepancyEq "all") (whereClauses (discrepanciesFilter path)) /\
  ~ In (Stmt.discrepancyEq "all") (whereClauses (aislesFilter path)) /\
  (exists stmt,
     sql.issued (database (handleApiDiscrepancies db path)) =
       (sql.issued db ++ [stmt])%list /\
     stmt <> exactMatchStmt "all") /\
  (exists stmt,
     sql.issued (database (handleApiAisles db path)) =
       (sql.issued db ++ [stmt])%list /\
     stmt <> exactMatchStmt "all").
Proof.
  split; [now rewrite whereClauses_split|].
  split; [apply whereClauses_all_has_no_equality|].
  split; [|split; [|split]].
  - rewrite discrepanciesFilter_last.
    set (seg := List.last (strings.Split path "/") "").
    destruct (String.eqb_spec seg "") as [_|Hne];
      [apply whereClauses_all_has_no_equality|].
    destruct (String.eqb_spec seg "all") as [->|Hnall];
      [apply whereClauses_all_has_no_equality|].
    rewrite (whereClauses_exact seg Hnall Hne). intros [Hi|[]].
    unfold Stmt.discrepancyEq in Hi. apply append_inj_l in Hi.
    now apply append_inj_r in Hi.
  - rewrite aislesFilter_last.
    set (seg := List.last (strings.Split path "/") "").
    destruct (String.eqb_spec seg "") as [->|Hne]; [intros []|].
    rewrite (whereClauses_aisle seg Hne). intros [Hi|[]].
    now apply aisleEq_not_discrepancyEq in Hi.
  - eexists. split; [apply handleApiDiscrepancies_issues|].
    apply toSqlStmt_discrepanciesFilter_not_exact_all.
  - eexists. split; [apply handleApiAisles_issues|].
    destruct (String.eqb (Aisle (aislesFilter path)) "");
      [discriminate | apply toSqlStmt_aislesFilter_not_exact_all].
Qed.

(** * Scanning rows *)

(** Scanning a [NullString] never fails, and what it stores does not
    depend on what the field held. *)
Lemma NullString_Scan_total (v : sql.Value) :
  exists ns', forall ns, NullString_Scan v ns = (ns', None).
Proof.
  exists (match v with
          | sql.VNull => zeroNullString
          | _ => match sql.assignString v with
                 | inl s => mkNullString s true
                 | inr _ => zeroNullString
                 end
          end).
  destruct v; intros ns; reflexivity.
Qed.

(** A row that scans overwrites every field of the record: the outcome
    does not depend on the record scanned into. *)
Lemma Scan_Wms_fresh (row : list sql.Value) (record : Wms.t) :
  match sql.Scan row Wms.dest Wms.zero with
  | (record', None) => sql.Scan row Wms.dest record = (record', None)
  | (_, Some err) => snd (sql.Scan row Wms.dest record) = Some err
  end.
Proof.
  unfold sql.Scan, Wms.dest.
  do 12 (destruct row as [|? row]; try reflexivity).
  cbn [List.length Nat.eqb sql.scanColumns].
  unfold sql.field, Wms.nullField.
  repeat match goal with
  | |- context [NullString_Scan ?v _] =>
      let ns := fresh "ns" in let H := fresh "H" in
      destruct (NullString_Scan_total v) as [ns H]; rewrite !H; clear H
  | |- context [sql.assignInt ?v] => destruct (sql.assignInt v)
  | |- context [sql.assignTime ?v] => destruct (sql.assignTime v)
  | |- context [sql.assignString ?v] => destruct (sql.assignString v)
  end; reflexivity.
Qed.

Lemma Scan_Wms_mapRow_ok (row : list sql.Value) (record r : Wms.t) :
  mapRow row = inl r -> sql.Scan row Wms.dest record = (r, None).
Proof.
  unfold mapRow. intros H. pose proof (Scan_Wms_fresh row record) as F.
  destruct (sql.Scan row Wms.dest Wms.zero) as [r' [e|]];
    [discriminate | now injection H as ->].
Qed.

Lemma Scan_Wms_mapRow_err (row : list sql.Value) (record : Wms.t)
      (err : sql.error) :
  mapRow row = inr err -> snd (sql.Scan row Wms.dest record) = Some err.
Proof.
  unfold mapRow. intros H. pose proof (Scan_Wms_fresh row record) as F.
  destruct (sql.Scan row Wms.dest Wms.zero) as [r' [e|]];
    [now injection H as -> | discriminate].
Qed.

(** The loop stops at the first row that fails and keeps what it built. *)
Lemma inventoryLoop_stops (pre post : list (list sql.Value))
      (bad : list sql.Value) (recs : list Wms.t) (err : sql.error) :
  List.map mapRow pre = List.map inl recs ->
  mapRow bad = inr err ->
  forall record wl,
    inventoryLoop (pre ++ bad :: post) record wl = ((wl ++ recs)%list, Some err).
Proof.
  intros Hpre Hbad. revert recs Hpre.
  induction pre as [|row pre IH]; intros recs Hpre record wl.
  - destruct recs; [|discriminate]. cbn [List.app inventoryLoop].
    pose proof (Scan_Wms_mapRow_err bad record err Hbad) as E.
    destruct (sql.Scan bad Wms.dest record) as [r' o]. simpl in E. subst o.
    now rewrite app_nil_r.
  - destruct recs as [|r recs]; [discriminate|].
    cbn [List.map] in Hpre. injection Hpre as Hrow Hpre.
    cbn [List.app inventoryLoop].
    rewrite (Scan_Wms_mapRow_ok row record r Hrow), (IH recs Hpre).
    now rewrite <- app_assoc.
Qed.

(** When every row maps, the loop returns every record and no error. *)
Lemma inventoryLoop_all (rows : list (list sql.Value)) (recs : list Wms.t) :
  List.map mapRow rows = List.map inl recs ->
  forall record wl,
    inventoryLoop rows record wl = ((wl ++ recs)%list, None).
Proof.
  revert recs. induction rows as [|row rows IH]; intros recs H record wl.
  - destruct recs; [|discriminate]. now rewrite app_nil_r.
  - destruct recs as [|r recs]; [discriminate|].
    cbn [List.map] in H. injection H as Hrow H.
    cbn [inventoryLoop].
    rewrite (Scan_Wms_mapRow_ok row record r Hrow), (IH recs H).
    now rewrite <- app_assoc.
Qed.

(** With rows that all map, [FetchInventory] returns their records in
    order and no error; without rows, the empty list. *)
Lemma FetchInventory_all_rows_map (db : sql.DB) (af : AisleFilter)
      (rows : sql.Rows) (recs : list Wms.t) :
  sql.exec db (toSqlStmt af) = inl rows ->
  List.map mapRow (sql.Data rows) = List.map inl recs ->
  snd (FetchInventory db af) = (recs, None).
Proof.
  intros Hq Hrows. unfold FetchInventory, sql.Query. rewrite Hq. cbn [snd].
  now rewrite (inventoryLoop_all _ recs Hrows).
Qed.

(** C2, as stated, fails: the second row of the result does not map, and
    [FetchInventory] returns the error together with the record of the
    first row. *)
Lemma FetchInventory_returns_partial_list :
  mapRow slotRow = inl slotRecord /\
  mapRow nullAisleRow = inr (sql.ErrScanColumn 4 sql.ConvNull) /\
  snd (FetchInventory dbWithNullAisle zeroAisleFilter) =
    ([slotRecord], Some (sql.ErrScanColumn 4 sql.ConvNull)) /\
  fst (snd (FetchInventory dbWithNullAisle zeroAisleFilter)) <> [].
Proof. repeat split. discriminate. Qed.

(** C2, amended: when a row of the result fails to map, [FetchInventory]
    returns the error of that row together with the records of the rows
    before it, in their order; the rows after it are not looked at.  The
    list is empty when the first row is the one that fails. *)
Theorem FetchInventory_error_keeps_records_before
        (db : sql.DB) (af : AisleFilter) (rows : sql.Rows)
        (pre post : list (list sql.Value)) (bad : list sql.Value)
        (recs : list Wms.t) (err : sql.error) :
  sql.exec db (toSqlStmt af) = inl rows ->
  sql.Data rows = (pre ++ bad :: post)%list ->
  List.map mapRow pre = List.map inl recs ->
  mapRow bad = inr err ->
  snd (FetchInventory db af) = (recs, Some err) /\
  (pre = [] -> snd (FetchInventory db af) = ([], Some err)).
Proof.
  intros Hq Hrows Hpre Hbad.
  assert (E : snd (FetchInventory db af) = (recs, Some err)).
  { unfold FetchInventory, sql.Query. rewrite Hq, Hrows. cbn [snd].
    now rewrite (inventoryLoop_stops pre post bad recs err Hpre Hbad). }
  split; [exact E|]. intros ->. rewrite E.
  now destruct recs.
Qed.

(** A good row followed by a row whose aisle is NULL. *)
Lemma FetchInventory_error_keeps_records_before_witness :
  snd (FetchInventory dbWithNullAisle zeroAisleFilter) =
    ([slotRecord], Some (sql.ErrScanColumn 4 sql.ConvNull)) /\
  ([slotRow] = [] ->
   snd (FetchInventory dbWithNullAisle zeroAisleFilter) =
     ([], Some (sql.ErrScanColumn 4 sql.ConvNull))).
Proof.
  apply (FetchInventory_error_keeps_records_before
           dbWithNullAisle zeroAisleFilter
           (sql.mkRows inventoryColumns [slotRow; nullAisleRow])
           [slotRow] [] nullAisleRow [slotRecord]
           (sql.ErrScanColumn 4 sql.ConvNull));
    reflexivity.
Defined.

(** * The aisle statistics *)




(** * The list of aisles *)

(** C10: [fetchAisles] does not look at its filter: whatever the filter,
    it issues the one statement [select distinct aisle from v_inventory
    order by aisle] and, on the same database, returns the same list and
    the same error. *)
Theorem fetchAisles_ignores_filter (db : sql.DB) (f1 f2 : string) :
  fetchAisles db f1 = fetchAisles db f2 /\
  sql.issued (fst (fetchAisles db f1)) =
    (sql.issued db ++
     ["select distinct aisle from v_inventory order by aisle"])%list /\
  snd (fetchAisles db f1) =
    match sql.exec db "select distinct aisle from v_inventory order by aisle" with
    | inl rows => aislesLoop (sql.Data rows) "" []
    | inr err => ([], Some err)
    end.
Proof.
  split; [reflexivity|].
  unfold fetchAisles, sql.Query, aislesStmt.
  now destruct (sql.exec db _).
Qed.

(** * [NullString] as JSON *)

(** C8: an absent field is written as the JSON empty string, not as
    [null]; the JSON empty string is read back as a present, empty value,
    so writing an absent field and reading the result does not give an
    absent field; and [UnmarshalJSON] returns the error of the decoder as
    it is, leaving the field valid exactly when there is none. *)
Theorem NullString_json_round_trip_is_lossy
        (json_Marshal : string -> string) (s b : string) (ns : NullString) :
  MarshalJSON json_Marshal (mkNullString s false) =
    (String DQ (String DQ ""), None) /\
  String DQ (String DQ "") <> "null" /\
  UnmarshalJSON (String DQ (String DQ "")) ns = (mkNullString "" true, None) /\
  fst (UnmarshalJSON (fst (MarshalJSON json_Marshal (mkNullString s false))) ns)
    = mkNullString "" true /\
  Valid (fst (UnmarshalJSON
                (fst (MarshalJSON json_Marshal (mkNullString s false))) ns))
    <> Valid (mkNullString s false) /\
  snd (UnmarshalJSON b ns) = snd (json.Unmarshal b (String_ ns)) /\
  Valid (fst (UnmarshalJSON b ns)) =
    match snd (json.Unmarshal b (String_ ns)) with
    | None => true
    | Some _ => false
    end /\
  UnmarshalJSON "{}" ns = (mkNullString (String_ ns) false, Some json.DecodeError).
Proof.
  repeat match goal with |- _ /\ _ => split end;
    try reflexivity; try discriminate.
  - unfold UnmarshalJSON. now destruct (json.Unmarshal b (String_ ns)).
  - unfold UnmarshalJSON. now destruct (json.Unmarshal b (String_ ns)) as [t [e|]].
Qed.

(** * Further properties of the query service *)

(** X1: [FetchInventory] stores the columns of a row, taken in the order
    of the statement's projection (inventoryId, startTime, stopTime, sku,
    aisle, block, slot, shelf, displayName, discrepancy, imageUrl), in the
    fields of those names: the tenth column is the discrepancy although
    [Discrepancy] is the fifth field, and a NULL sku, discrepancy or image
    gives an absent field. *)
Theorem inventory_row_fills_fields_by_column
        (id : Z) (start stop : Time) (sku disc img : option string)
        (a b s sh dn : string) :
  sql.isInt64 id = true ->
  mapRow [ sql.VInt id; sql.VTime start; sql.VTime stop;
           nullableColumn sku; sql.VString a; sql.VString b; sql.VString s;
           sql.VString sh; sql.VString dn; nullableColumn disc;
           nullableColumn img ] =
  inl (Wms.mk id start stop (nullStringOf sku) (nullStringOf disc)
              a b s sh dn (nullStringOf img)).
Proof.
  intros Hid. unfold mapRow, sql.Scan, Wms.dest.
  cbn [List.length Nat.eqb sql.scanColumns].
  unfold sql.field at 1. unfold sql.assignInt. rewrite Hid.
  destruct sku, disc, img; reflexivity.
Qed.

(** An occupied slot with a discrepancy note and no image. *)
Lemma inventory_row_fills_fields_by_column_witness :
  mapRow [ sql.VInt 7; sql.VTime noon; sql.VTime noon;
           nullableColumn (Some "SKU-7"); sql.VString "A1";
           sql.VString "B2"; sql.VString "S3"; sql.VString "top";
           sql.VString "A1-B2-S3"; nullableColumn (Some "damaged");
           nullableColumn None ] =
  inl (Wms.mk 7 noon noon (mkNullString "SKU-7" true)
              (mkNullString "damaged" true) "A1" "B2" "S3" "top" "A1-B2-S3"
              (mkNullString "" false)).
Proof.
  apply (inventory_row_fills_fields_by_column
           7 noon noon (Some "SKU-7") (Some "damaged") None
           "A1" "B2" "S3" "top" "A1-B2-S3").
  reflexivity.
Defined.

(** What a row that maps looks like: eleven columns, each accepted by the
    conversion of its field. *)
Lemma mapRow_inl_columns (row : list sql.Value) (r : Wms.t) :
  mapRow row = inl r ->
  exists v0 v1 v2 v3 v4 v5 v6 v7 v8 v9 v10,
    row = [v0; v1; v2; v3; v4; v5; v6; v7; v8; v9; v10] /\
    sql.assignInt v0 = inl (Wms.Id r) /\
    sql.assignTime v1 = inl (Wms.StartTime r) /\
    sql.assignTime v2 = inl (Wms.StopTime r) /\
    sql.assignString v4 = inl (Wms.Aisle r) /\
    sql.assignString v5 = inl (Wms.Block r) /\
    sql.assignString v6 = inl (Wms.Slot r) /\
    sql.assignString v7 = inl (Wms.Shelf r) /\
    sql.assignString v8 = inl (Wms.DisplayName r).
Proof.
  unfold mapRow, sql.Scan, Wms.dest.
  do 12 (destruct row as [|? row]; try discriminate).
  cbn [List.length Nat.eqb sql.scanColumns].
  unfold sql.field, Wms.nullField.
  repeat match goal with
  | |- context [NullString_Scan ?v _] =>
      let ns := fresh "ns" in let H := fresh "H" in
      destruct (NullString_Scan_total v) as [ns H]; rewrite !H; clear H
  | |- context [sql.assignInt ?v] =>
      let E := fresh "E" in destruct (sql.assignInt v) eqn:E
  | |- context [sql.assignTime ?v] =>
      let E := fresh "E" in destruct (sql.assignTime v) eqn:E
  | |- context [sql.assignString ?v] =>
      let E := fresh "E" in destruct (sql.assignString v) eqn:E
  end; try discriminate.
  intros H. injection H as <-. cbn.
  repeat eexists; eassumption.
Qed.

(** X2: a row maps only if its NULLs are confined to the sku, discrepancy
    and imageUrl columns (positions 3, 9 and 10 of the eleven): a NULL in
    any other column makes [rows.Scan] fail. *)
Theorem mapped_row_has_null_only_in_nullable_columns
        (row : list sql.Value) (r : Wms.t) (i : nat) :
  mapRow row = inl r ->
  List.nth_error row i = Some sql.VNull ->
  List.length row = 11 /\ (i = 3 \/ i = 9 \/ i = 10).
Proof.
  intros H Hi.
  destruct (mapRow_inl_columns row r H)
    as (v0 & v1 & v2 & v3 & v4 & v5 & v6 & v7 & v8 & v9 & v10 & -> &
        E0 & E1 & E2 & E4 & E5 & E6 & E7 & E8).
  split; [reflexivity|].
  do 11 (destruct i as [|i];
         [cbn in Hi; injection Hi as ->; try discriminate; auto|]).
  destruct i; discriminate.
Qed.

(** The sample slot row has its NULLs in the discrepancy and the image. *)
Lemma mapped_row_has_null_only_in_nullable_columns_witness :
  List.length slotRow = 11 /\ (9 = 3 \/ 9 = 9 \/ 9 = 10).
Proof.
  apply (mapped_row_has_null_only_in_nullable_columns slotRow slotRecord 9);
    reflexivity.
Defined.

(** A loop that ends without error has mapped every row. *)
Lemma inventoryLoop_no_error (rows : list (list sql.Value)) :
  forall record wl wl',
    inventoryLoop rows record wl = (wl', None) ->
    exists recs, List.map mapRow rows = List.map inl recs /\
                 wl' = (wl ++ recs)%list.
Proof.
  induction rows as [|row rows IH]; intros record wl wl' H.
  - injection H as <-. exists []. now rewrite app_nil_r.
  - cbn [inventoryLoop] in H.
    destruct (mapRow row) as [r0|e0] eqn:Em.
    + rewrite (Scan_Wms_mapRow_ok row record r0 Em) in H.
      destruct (IH _ _ _ H) as (recs & Hm & ->).
      exists (r0 :: recs). cbn [List.map]. rewrite Em, Hm.
      split; [reflexivity | now rewrite <- app_assoc].
    + pose proof (Scan_Wms_mapRow_err row record e0 Em) as F.
      destruct (sql.Scan row Wms.dest record) as [r1 o]. cbn in F. subst o.
      discriminate.
Qed.

(** X3: when the query succeeds, [FetchInventory] returns no error
    exactly when every row maps, and then its list holds the record of
    each row, in the order of the rows: the one [record] variable the
    rows are scanned into carries nothing from a row to the next. *)
Theorem FetchInventory_no_error_iff_all_rows_map
        (db : sql.DB) (af : AisleFilter) (rows : sql.Rows) :
  sql.exec db (toSqlStmt af) = inl rows ->
  (forall recs, List.map mapRow (sql.Data rows) = List.map inl recs ->
                snd (FetchInventory db af) = (recs, None)) /\
  (snd (snd (FetchInventory db af)) = None ->
   List.map mapRow (sql.Data rows) =
     List.map inl (fst (snd (FetchInventory db af)))).
Proof.
  intros Hq. split.
  - intros recs Hm. exact (FetchInventory_all_rows_map db af rows recs Hq Hm).
  - unfold FetchInventory, sql.Query. rewrite Hq. cbn [snd].
    destruct (inventoryLoop (sql.Data rows) Wms.zero []) as [wl' o] eqn:E.
    cbn [fst snd]. intros ->.
    destruct (inventoryLoop_no_error _ _ _ _ E) as (recs & Hm & ->).
    exact Hm.
Qed.

(** Two good rows, the second with a NULL sku after a first with one. *)
Lemma FetchInventory_no_error_iff_all_rows_map_witness :
  snd (FetchInventory
         (sql.mkDB (fun _ => inl (sql.mkRows inventoryColumns
            [slotRow;
             [ sql.VInt 2; sql.VTime noon; sql.VTime noon; sql.VNull;
               sql.VString "A1"; sql.VString "B1"; sql.VString "S2";
               sql.VString "top"; sql.VString "A1-B1-S2"; sql.VNull;
               sql.VNull ]])) [])
         zeroAisleFilter) =
  ([slotRecord;
    Wms.mk 2 noon noon zeroNullString zeroNullString
           "A1" "B1" "S2" "top" "A1-B1-S2" zeroNullString], None).
Proof.
  refine (proj1 (FetchInventory_no_error_iff_all_rows_map _ _ _ _) _ _);
    reflexivity.
Defined.

(** The loop of [fetchAisles] over rows that hold one text each. *)
Lemma aislesLoop_textRows (names : list string)
      (tail : list (list sql.Value)) :
  forall aisle aisleList,
    exists aisle',
      aislesLoop (textRows names ++ tail) aisle aisleList =
      aislesLoop tail aisle' (aisleList ++ names)%list.
Proof.
  induction names as [|a names IH]; intros aisle aisleList.
  - exists aisle. now rewrite app_nil_r.
  - cbn [textRows List.map List.app aislesLoop].
    change (List.map (fun a => [sql.VString a]) names) with (textRows names).
    replace (sql.Scan [sql.VString a]
               [sql.field sql.assignString (fun v _ : string => v)] aisle)
      with (a, @None sql.error) by reflexivity.
    destruct (IH a (aisleList ++ [a])%list) as [aisle' ->].
    exists aisle'. now rewrite <- app_assoc.
Qed.

(** X4: [fetchAisles] returns the aisles of the rows in their order while
    each row is one text; a row whose aisle is NULL ends the listing with
    a scan error on column 0, and the aisles before it are returned with
    the error. *)
Theorem fetchAisles_lists_aisles_until_null
        (db : sql.DB) (filter : string) (rows : sql.Rows)
        (names : list string) (tail : list (list sql.Value)) :
  sql.exec db aislesStmt = inl rows ->
  sql.Data rows = (textRows names ++ tail)%list ->
  (tail = [] -> snd (fetchAisles db filter) = (names, None)) /\
  (forall post, tail = [sql.VNull] :: post ->
     snd (fetchAisles db filter) =
       (names, Some (sql.ErrScanColumn 0 sql.ConvNull))).
Proof.
  intros Hq Hrows.
  assert (E : exists aisle', snd (fetchAisles db filter) =
                             aislesLoop tail aisle' names).
  { unfold fetchAisles, sql.Query. rewrite Hq, Hrows. cbn [snd].
    apply aislesLoop_textRows. }
  destruct E as [aisle' E]. split.
  - intros ->. now rewrite E.
  - intros post ->. now rewrite E.
Qed.

(** Two aisles, then a NULL, then one more row. *)
Lemma fetchAisles_lists_aisles_until_null_witness :
  snd (fetchAisles
         (dbAisles [[sql.VString "A1"]; [sql.VString "A2"]; [sql.VNull];
                    [sql.VString "A3"]])
         "") = (["A1"; "A2"], Some (sql.ErrScanColumn 0 sql.ConvNull)).
Proof.
  refine (proj2 (fetchAisles_lists_aisles_until_null
                   (dbAisles [[sql.VString "A1"]; [sql.VString "A2"];
                              [sql.VNull]; [sql.VString "A3"]])
                   "" (sql.mkRows ["aisle"] _) ["A1"; "A2"]
                   [[sql.VNull]; [sql.VString "A3"]] eq_refl eq_refl)
                [[sql.VString "A3"]] eq_refl).
Defined.

(** * Further properties of the handlers *)

(** X5: the aisles handler issues one statement, and its text is a
    function of the last component [s] of the path alone: the stats
    statement when [s] is empty, otherwise the projection followed by
    [where aisle ='s'] and the ordering clause, with [s] copied in as it
    is. *)
Theorem aisles_route_statement (db : sql.DB) (p s : string) :
  strings.Contains s "/" = false ->
  sql.issued (database (handleApiAisles db (p ++ "/" ++ s))) =
  (sql.issued db ++
   [if String.eqb s ""
    then "select distinct aisle, numberException, numberEmpty, numberOccupied, numberUnscanned, lastScanned from v_aisleStats"
    else (Stmt.sel ++ " where aisle ='" ++ s
                   ++ "' order by aisle, block, slot")%string])%list.
Proof.
  intros H. rewrite handleApiAisles_issues, aislesFilter_last.
  rewrite (last_Split_after_sep p s H). cbn [Aisle].
  destruct (String.eqb_spec s "") as [->|Hne]; [reflexivity|].
  unfold toSqlStmt. rewrite (whereClauses_aisle s Hne).
  cbn [List.length Nat.ltb Nat.leb strings.Join].
  unfold Stmt.aisleEq. now rewrite !append_assoc.
Qed.

(** The request [/aisles/A1]. *)
Lemma aisles_route_statement_witness :
  sql.issued (database (handleApiAisles dbStatsA1 ("/aisles" ++ "/" ++ "A1"))) =
  [Stmt.sel ++ " where aisle ='A1' order by aisle, block, slot"].
Proof.
  apply (aisles_route_statement dbStatsA1 "/aisles" "A1"). reflexivity.
Defined.

(** X6: the discrepancies handler issues one statement, and its text is a
    function of the last component [s] of the path alone: the projection
    followed by [where discrepancy !=""] when [s] is empty or "all", by
    [where discrepancy ='s'] otherwise, with [s] copied in as it is, and
    the ordering clause. *)
Theorem discrepancies_route_statement (db : sql.DB) (p s : string) :
  strings.Contains s "/" = false ->
  sql.issued (database (handleApiDiscrepancies db (p ++ "/" ++ s))) =
  (sql.issued db ++
   [if String.eqb s "" || String.eqb s "all"
    then (Stmt.sel ++ " where discrepancy !=" ++ String DQ (String DQ " ")
                   ++ " order by aisle, block, slot")%string
    else (Stmt.sel ++ " where discrepancy ='" ++ s
                   ++ "' order by aisle, block, slot")%string])%list.
Proof.
  intros H. rewrite handleApiDiscrepancies_issues, discrepanciesFilter_last.
  rewrite (last_Split_after_sep p s H).
  destruct (String.eqb_spec s "") as [->|Hne]; [reflexivity|].
  destruct (String.eqb_spec s "all") as [->|Hnall]; [reflexivity|].
  cbn [orb]. rewrite (toSqlStmt_exact s Hnall Hne).
  unfold exactMatchStmt, Stmt.discrepancyEq. now rewrite !append_assoc.
Qed.

(** The request [/discrepancies/damaged]. *)
Lemma discrepancies_route_statement_witness :
  sql.issued (database (handleApiDiscrepancies dbWithNullAisle
                          ("/discrepancies" ++ "/" ++ "damaged"))) =
  [Stmt.sel ++ " where discrepancy ='damaged' order by aisle, block, slot"].
Proof.
  apply (discrepancies_route_statement dbWithNullAisle "/discrepancies" "damaged").
  reflexivity.
Defined.

(** X7: a handler looks at nothing but the last component of the path:
    two paths that end in the same component are handled alike, whatever
    precedes it (database, log and response are the same). *)
Theorem handlers_ignore_what_precedes_the_last_component
        (db : sql.DB) (p q s : string) :
  strings.Contains s "/" = false ->
  handleApiAisles db (p ++ "/" ++ s) = handleApiAisles db (q ++ "/" ++ s) /\
  handleApiDiscrepancies db (p ++ "/" ++ s) =
    handleApiDiscrepancies db (q ++ "/" ++ s).
Proof.
  intros H. unfold handleApiAisles, handleApiDiscrepancies.
  rewrite !aislesFilter_last, !discrepanciesFilter_last, !lastSegment_Split.
  now rewrite !(last_Split_after_sep _ s H).
Qed.

(** [/aisles/A1] and [/api/v2/aisles/A1]. *)
Lemma handlers_ignore_what_precedes_the_last_component_witness :
  handleApiAisles dbWithNullAisle ("/aisles" ++ "/" ++ "A1") =
    handleApiAisles dbWithNullAisle ("/api/v2/aisles" ++ "/" ++ "A1") /\
  handleApiDiscrepancies dbWithNullAisle ("/aisles" ++ "/" ++ "A1") =
    handleApiDiscrepancies dbWithNullAisle ("/api/v2/aisles" ++ "/" ++ "A1").
Proof.
  apply (handlers_ignore_what_precedes_the_last_component
           dbWithNullAisle "/aisles" "/api/v2/aisles" "A1").
  reflexivity.
Defined.

(** X8: a failed query does not stop a handler: it logs the error and
    still hands a list to the emitter, the empty one.  With a database
    that fails every statement, the discrepancies handler logs the
    segment and the error, the aisles handler the error, and each calls
    [jsonApi] with no records. *)
Theorem handlers_answer_after_a_failed_query
        (db : sql.DB) (err : sql.error) (p s : string) :
  (forall stmt, sql.exec db stmt = inr err) ->
  strings.Contains s "/" = false ->
  logged (handleApiDiscrepancies db (p ++ "/" ++ s)) =
    [LogLine s; LogError err] /\
  response (handleApiDiscrepancies db (p ++ "/" ++ s)) =
    jsonApi (PInventory []) false /\
  logged (handleApiAisles db (p ++ "/" ++ s)) = [LogError err] /\
  response (handleApiAisles db (p ++ "/" ++ s)) =
    (if String.eqb s "" then jsonApi (PStats []) false
     else jsonApi (PInventory []) true).
Proof.
  intros Hdown H.
  unfold handleApiDiscrepancies, handleApiAisles, FetchInventory,
    fetchAisleStats, sql.Query.
  rewrite !Hdown, lastSegment_Split, aislesFilter_last.
  rewrite (last_Split_after_sep p s H). cbn [Aisle].
  repeat split. now destruct (String.eqb s "").
  now destruct (String.eqb s "").
Qed.

(** The database is down and [/discrepancies/late] is requested. *)
Lemma handlers_answer_after_a_failed_query_witness :
  logged (handleApiDiscrepancies (dbDown (sql.ErrQuery "connection refused"))
            ("/discrepancies" ++ "/" ++ "late")) =
    [LogLine "late"; LogError (sql.ErrQuery "connection refused")] /\
  response (handleApiDiscrepancies (dbDown (sql.ErrQuery "connection refused"))
              ("/discrepancies" ++ "/" ++ "late")) =
    jsonApi (PInventory []) false /\
  logged (handleApiAisles (dbDown (sql.ErrQuery "connection refused"))
            ("/discrepancies" ++ "/" ++ "late")) =
    [LogError (sql.ErrQuery "connection refused")] /\
  response (handleApiAisles (dbDown (sql.ErrQuery "connection refused"))
              ("/discrepancies" ++ "/" ++ "late")) =
    jsonApi (PInventory []) true.
Proof.
  apply (handlers_answer_after_a_failed_query
           (dbDown (sql.ErrQuery "connection refused"))
           (sql.ErrQuery "connection refused") "/discrepancies" "late");
    reflexivity.
Defined.

(** X9: a row that fails to map does not stop a handler either: the
    records of the rows before it are handed to the emitter as if the
    fetch had succeeded, and the error only goes to the log. *)
Theorem handler_emits_the_records_before_a_failing_row
        (db : sql.DB) (p s : string) (rows : sql.Rows)
        (pre post : list (list sql.Value)) (bad : list sql.Value)
        (recs : list Wms.t) (err : sql.error) :
  strings.Contains s "/" = false ->
  sql.exec db (toSqlStmt (discrepanciesFilter (p ++ "/" ++ s))) = inl rows ->
  sql.Data rows = (pre ++ bad :: post)%list ->
  List.map mapRow pre = List.map inl recs ->
  mapRow bad = inr err ->
  response (handleApiDiscrepancies db (p ++ "/" ++ s)) =
    jsonApi (PInventory recs) false /\
  logged (handleApiDiscrepancies db (p ++ "/" ++ s)) =
    [LogLine s; LogError err].
Proof.
  intros H Hq Hrows Hpre Hbad.
  unfold handleApiDiscrepancies, FetchInventory, sql.Query.
  rewrite Hq, Hrows, (inventoryLoop_stops pre post bad recs err Hpre Hbad).
  rewrite lastSegment_Split, (last_Split_after_sep p s H).
  split; reflexivity.
Qed.

(** A good row followed by a row whose aisle is NULL, for [/discrepancies/]. *)
Lemma handler_emits_the_records_before_a_failing_row_witness :
  response (handleApiDiscrepancies dbWithNullAisle ("/discrepancies" ++ "/" ++ "")) =
    jsonApi (PInventory [slotRecord]) false /\
  logged (handleApiDiscrepancies dbWithNullAisle ("/discrepancies" ++ "/" ++ "")) =
    [LogLine ""; LogError (sql.ErrScanColumn 4 sql.ConvNull)].
Proof.
  apply (handler_emits_the_records_before_a_failing_row
           dbWithNullAisle "/discrepancies" ""
           (sql.mkRows inventoryColumns [slotRow; nullAisleRow])
           [slotRow] [] nullAisleRow [slotRecord]
           (sql.ErrScanColumn 4 sql.ConvNull));
    reflexivity.
Defined.

(** * Further properties of the compiled statement *)

(** The statement of every filter, case by case. *)
Lemma toSqlStmt_forms (a d : string) :
  toSqlStmt (mkAisleFilter a d) =
  Stmt.sel ++
  (if String.eqb a ""
   then if String.eqb d "all"
        then " where discrepancy !=" ++ String DQ (String DQ " ")
             ++ " order by aisle, block, slot"
        else if String.eqb d ""
             then " order by aisle, block, slot"
             else " where discrepancy ='" ++ d
                  ++ "' order by aisle, block, slot"
   else " where aisle ='" ++ a ++
        (if String.eqb d "all"
         then "' and discrepancy !=" ++ String DQ (String DQ " ")
              ++ " order by aisle, block, slot"
         else if String.eqb d ""
              then "' order by aisle, block, slot"
              else "' and discrepancy ='" ++ d
                   ++ "' order by aisle, block, slot")).
Proof.
  unfold toSqlStmt, whereClauses. cbn [Aisle Discrepancy].
  destruct (String.eqb a ""), (String.eqb d "all"), (String.eqb d "");
    cbn [negb List.app List.length Nat.ltb Nat.leb strings.Join];
    unfold Stmt.aisleEq, Stmt.discrepancyEq;
    rewrite ?append_assoc; reflexivity.
Qed.

Lemma quoteFree_cons (c : ascii) (s : string) :
  quoteFree (String c s) = negb (Ascii.eqb c "'") && quoteFree s.
Proof.
  unfold quoteFree. cbn [strings.Contains strings.HasPrefix].
  now rewrite andb_true_r, negb_orb, (Ascii.eqb_sym "'" c).
Qed.

(** Two texts without a quote, each followed by a quote, are the same
    when what they start is the same. *)
Lemma first_quote_split (a b t t' : string) :
  quoteFree a = true -> quoteFree b = true ->
  a ++ String "'" t = b ++ String "'" t' -> a = b /\ t = t'.
Proof.
  revert b. induction a as [|x a IH]; intros [|y b] Ha Hb H; cbn in H.
  - injection H as ->. now split.
  - injection H as <- _. rewrite quoteFree_cons in Hb. discriminate.
  - injection H as -> _. rewrite quoteFree_cons in Ha. discriminate.
  - injection H as -> H. rewrite quoteFree_cons in Ha, Hb.
    apply andb_prop in Ha as [_ Ha]. apply andb_prop in Hb as [_ Hb].
    destruct (IH b Ha Hb H) as [-> ->]. now split.
Qed.

Ltac strip_literal H :=
  repeat match type of H with
         | String ?c _ = String ?c _ => injection H as H
         end.

(** X10: on filters whose values hold no single quote the statement
    determines the filter: two such filters that differ never compile to
    the same statement. *)
Theorem toSqlStmt_injective_without_quotes (af1 af2 : AisleFilter) :
  quoteFree (Aisle af1) = true -> quoteFree (Discrepancy af1) = true ->
  quoteFree (Aisle af2) = true -> quoteFree (Discrepancy af2) = true ->
  af1 <> af2 -> toSqlStmt af1 <> toSqlStmt af2.
Proof.
  destruct af1 as [a1 d1], af2 as [a2 d2]. cbn [Aisle Discrepancy].
  intros Qa1 Qd1 Qa2 Qd2 Hdiff H. apply Hdiff. clear Hdiff.
  rewrite !toSqlStmt_forms in H.
  apply append_inj_l in H.
  destruct (String.eqb_spec a1 "") as [->|Na1];
  destruct (String.eqb_spec d1 "all") as [->|Nd1];
  try destruct (String.eqb_spec d1 "") as [->|Ne1];
  destruct (String.eqb_spec a2 "") as [->|Na2];
  destruct (String.eqb_spec d2 "all") as [->|Nd2];
  try destruct (String.eqb_spec d2 "") as [->|Ne2];
  cbn in H; try discriminate H; try reflexivity;
  strip_literal H;
  try (apply first_quote_split in H as [-> H]; [|assumption|assumption];
       try discriminate H; try reflexivity; strip_literal H);
  try (apply first_quote_split in H as [-> H]; [|assumption|assumption]);
  reflexivity.
Qed.

(** Aisle A1 with "late" against aisle A1 with "damaged". *)
Lemma toSqlStmt_injective_without_quotes_witness :
  toSqlStmt (mkAisleFilter "A1" "late") <>
  toSqlStmt (mkAisleFilter "A1" "damaged").
Proof.
  apply (toSqlStmt_injective_without_quotes
           (mkAisleFilter "A1" "late") (mkAisleFilter "A1" "damaged"));
    [reflexivity | reflexivity | reflexivity | reflexivity | discriminate].
Defined.

(** X11: with a quote the statement no longer determines the filter: the
    aisles handler, given the segment [x' and discrepancy ='y], issues
    the very statement of the filter with aisle [x] and discrepancy [y],
    a filter with two predicates that neither handler builds itself. *)
Theorem aisle_segment_can_carry_a_discrepancy_predicate
        (db : sql.DB) (p x y : string) :
  x <> "" -> y <> "" -> y <> "all" ->
  strings.Contains (x ++ "' and discrepancy ='" ++ y) "/" = false ->
  sql.issued (database (handleApiAisles db
                (p ++ "/" ++ (x ++ "' and discrepancy ='" ++ y)))) =
    (sql.issued db ++ [toSqlStmt (mkAisleFilter x y)])%list /\
  aislesFilter (p ++ "/" ++ (x ++ "' and discrepancy ='" ++ y)) <>
    mkAisleFilter x y.
Proof.
  intros Hx Hy Hall Hs.
  rewrite handleApiAisles_issues, aislesFilter_last.
  rewrite (last_Split_after_sep p _ Hs). cbn [Aisle].
  assert (Hne : x ++ "' and discrepancy ='" ++ y <> "").
  { destruct x; [contradiction | discriminate]. }
  split.
  - destruct (String.eqb_spec (x ++ "' and discrepancy ='" ++ y) "");
      [contradiction|].
    rewrite !toSqlStmt_forms.
    destruct (String.eqb_spec (x ++ "' and discrepancy ='" ++ y) "");
      [contradiction|].
    destruct (String.eqb_spec x ""); [contradiction|].
    destruct (String.eqb_spec y "all"); [contradiction|].
    destruct (String.eqb_spec y ""); [contradiction|].
    cbn [String.eqb]. now rewrite !append_assoc.
  - intros H. injection H as H. now destruct y.
Qed.

(** The segment [A1' and discrepancy ='late]. *)
Lemma aisle_segment_can_carry_a_discrepancy_predicate_witness :
  sql.issued (database (handleApiAisles dbWithNullAisle
                ("/aisles" ++ "/" ++ ("A1" ++ "' and discrepancy ='" ++ "late")))) =
    [toSqlStmt (mkAisleFilter "A1" "late")] /\
  aislesFilter ("/aisles" ++ "/" ++ ("A1" ++ "' and discrepancy ='" ++ "late")) <>
    mkAisleFilter "A1" "late".
Proof.
  apply (aisle_segment_can_carry_a_discrepancy_predicate
           dbWithNullAisle "/aisles" "A1" "late");
    [discriminate | discriminate | discriminate | reflexivity].
Defined.

(** X12: the statement has a [where] clause exactly when the filter sets
    an aisle or a discrepancy. *)
Theorem where_clause_iff_filter_set (af : AisleFilter) :
  strings.Contains (toSqlStmt af) " where " = true <->
  Aisle af <> "" \/ Discrepancy af <> "".
Proof.
  destruct af as [a d]. cbn [Aisle Discrepancy]. rewrite toSqlStmt_forms.
  destruct (String.eqb_spec a "") as [->|Na];
    destruct (String.eqb_spec d "all") as [->|Nd];
    try destruct (String.eqb_spec d "") as [->|Ne];
    split; intros H; try reflexivity; try discriminate H;
    try (left; assumption); try (right; assumption);
    try (right; discriminate).
  destruct H as [H|H]; contradiction.
Qed.

(** * Further properties of [NullString] on the wire *)

Lemma skipSpace_allSpace (ws t : string) :
  allSpace ws = true -> json.skipSpace (ws ++ t) = json.skipSpace t.
Proof.
  induction ws as [|c ws IH]; cbn; intros H; [reflexivity|].
  apply andb_prop in H as [Hc Hws]. rewrite Hc. now apply IH.
Qed.

Lemma atEnd_allSpace (ws : string) : allSpace ws = true -> json.atEnd ws = true.
Proof.
  unfold json.atEnd. induction ws as [|c ws IH]; cbn; intros H; [reflexivity|].
  apply andb_prop in H as [Hc Hws]. rewrite Hc. now apply IH.
Qed.

(** A literal of plain bytes is unquoted to those bytes. *)
Lemma unquote_plain (s rest : string) :
  allPlain s = true ->
  json.unquote (s ++ String DQ rest) = Some (s, rest).
Proof.
  induction s as [|c s IH]; intros H; [reflexivity|].
  cbn [allPlain] in H. apply andb_prop in H as [Hc Hs].
  unfold isPlain in Hc.
  apply andb_prop in Hc as [Hc H128]. apply andb_prop in Hc as [Hc H32].
  apply andb_prop in Hc as [H34 H92].
  apply negb_true_iff in H34, H92, H32.
  cbn [String.append json.unquote].
  rewrite H34, H92, H32, H128, (IH Hs). reflexivity.
Qed.

(** X13: [UnmarshalJSON] of a quoted text of plain bytes (printable
    ASCII without quote and backslash), with white space around it or
    not, makes the field present with exactly that text, whatever the
    field held before. *)
Theorem UnmarshalJSON_plain_literal
        (ws1 ws2 s : string) (ns : NullString) :
  allSpace ws1 = true -> allSpace ws2 = true -> allPlain s = true ->
  UnmarshalJSON (ws1 ++ String DQ (s ++ String DQ ws2)) ns =
    (mkNullString s true, None).
Proof.
  intros H1 H2 Hs. unfold UnmarshalJSON, json.Unmarshal.
  rewrite (skipSpace_allSpace ws1 _ H1).
  cbn [json.skipSpace]. change (json.isSpace DQ) with false. cbn iota.
  change (json.code DQ =? 34)%N with true. cbn iota.
  now rewrite (unquote_plain s ws2 Hs), (atEnd_allSpace ws2 H2).
Qed.

(** The text ["A1-B2"] after a space and before a line feed. *)
Lemma UnmarshalJSON_plain_literal_witness :
  UnmarshalJSON (" " ++ String DQ ("A1-B2" ++ String DQ (String (ascii_of_nat 10) "")))
                (mkNullString "old" false) =
    (mkNullString "A1-B2" true, None).
Proof.
  apply (UnmarshalJSON_plain_literal " " (String (ascii_of_nat 10) "") "A1-B2");
    reflexivity.
Defined.

(** X14: [UnmarshalJSON] does not read [null] as an absent field: the
    decoder leaves the string as it was and reports no error, so the
    field comes out valid, with whatever text it held. *)
Theorem UnmarshalJSON_null_is_present
        (ws1 ws2 : string) (ns : NullString) :
  allSpace ws1 = true -> allSpace ws2 = true ->
  UnmarshalJSON (ws1 ++ "null" ++ ws2) ns =
    (mkNullString (String_ ns) true, None).
Proof.
  intros H1 H2. unfold UnmarshalJSON, json.Unmarshal.
  rewrite (skipSpace_allSpace ws1 _ H1).
  cbn [String.append json.skipSpace].
  change (json.isSpace "n") with false. cbn iota.
  change (json.code "n" =? 34)%N with false. cbn iota.
  now rewrite (atEnd_allSpace ws2 H2).
Qed.

(** [null] read into an absent field that held "old". *)
Lemma UnmarshalJSON_null_is_present_witness :
  UnmarshalJSON ("" ++ "null" ++ "") (mkNullString "old" false) =
    (mkNullString "old" true, None).
Proof.
  apply (UnmarshalJSON_null_is_present "" ""); reflexivity.
Defined.

(** X15: what a nullable text column holds is what [MarshalCSV] writes
    for the field it was scanned into, a NULL being written as nothing;
    so a NULL column and an empty text give the same bytes.  It never
    returns an error, and the content of the field before the scan does
    not show. *)
Theorem MarshalCSV_of_scanned_column
        (error : Type) (o : option string) (ns : NullString) :
  MarshalCSV error (fst (NullString_Scan (nullableColumn o) ns)) =
    (match o with Some t => t | None => "" end, None) /\
  MarshalCSV error (fst (NullString_Scan (nullableColumn None) ns)) =
    MarshalCSV error (fst (NullString_Scan (nullableColumn (Some "")) ns)).
Proof.
  split; [now destruct o | reflexivity].
Qed.

(** On an error the decoder hands the target back as it was. *)
Lemma Unmarshal_error_keeps_target (b target : string) (e : json.error) :
  snd (json.Unmarshal b target) = Some e ->
  fst (json.Unmarshal b target) = target.
Proof.
  unfold json.Unmarshal.
  destruct (json.skipSpace b) as [|c rest]; [reflexivity|].
  destruct (json.code c =? 34)%N.
  - destruct (json.unquote rest) as [[t after]|]; [|reflexivity].
    destruct (json.atEnd after); [discriminate | reflexivity].
  - repeat match goal with
           | |- context [match ?x with _ => _ end] =>
               destruct x; try reflexivity; try discriminate
           end.
Qed.

(** X16: when the decoding fails, [UnmarshalJSON] leaves the text of the
    field as it was and marks the field absent: a stale text stays in
    [String] behind [Valid = false]. *)
Theorem UnmarshalJSON_failure_keeps_text
        (b : string) (ns : NullString) (e : json.error) :
  snd (UnmarshalJSON b ns) = Some e ->
  fst (UnmarshalJSON b ns) = mkNullString (String_ ns) false.
Proof.
  unfold UnmarshalJSON. intros H.
  pose proof (Unmarshal_error_keeps_target b (String_ ns)) as K.
  destruct (json.Unmarshal b (String_ ns)) as [s [e'|]]; cbn in *;
    [|discriminate].
  now rewrite (K e' eq_refl).
Qed.

(** A number read into a field that held "SKU-1". *)
Lemma UnmarshalJSON_failure_keeps_text_witness :
  fst (UnmarshalJSON "12" (mkNullString "SKU-1" true)) =
    mkNullString "SKU-1" false.
Proof.
  apply (UnmarshalJSON_failure_keeps_text "12" (mkNullString "SKU-1" true)
           json.DecodeError).
  reflexivity.
Defined.
